(** * openstack_auth.views: session switching, logout and token reaping

    A shallow embedding of [src/openstack_auth/views.py].  The views are
    Python functions that mutate the request (its session and its user),
    call the identity service, log, and catch some exceptions; they are
    embedded as computations in a state-and-exception monad [M].

    - Python objects that are shared by reference (lists and dicts kept in
      the session) live in a heap and are named by a location.
    - The collaborators imported by the module (Django, the keystone client,
      [.user], [.forms], [urlparse]) are the fields of the interface [Env]:
      the views are defined, and the theorems proved, for every
      implementation of it. *)

From Stdlib Require Import Ascii String.
From stdpp Require Import gmap strings list.

(** ** Python values and exceptions *)

Definition loc := positive.

(** Immutable values are values; a list or a dict is a reference into the
    heap, so that two names for one object see each other's updates. *)
#[warnings="-register-all"]
Inductive val :=
  | VNone
  | VStr (s : string)
  | VTuple (xs : list val)
  | VRef (l : loc).

Inductive obj :=
  | OList (xs : list val)
  | ODict (d : gmap string val).

(** The exceptions the module can meet.  [ClientException name] stands for
    [keystone_exceptions.ClientException] and its subclasses, which is what
    the [except] clauses of [switch] and [delete_all_tokens] catch. *)
Inductive exn :=
  | KeyError
  | IndexError
  | TypeError
  | ClientException (name : string)
  | OtherException (name : string).

Definition is_ClientException (e : exn) : bool :=
  match e with ClientException _ => true | _ => false end.

Definition is_KeyError (e : exn) : bool :=
  match e with KeyError => true | _ => false end.

Inductive res (A : Type) :=
  | Ret (a : A)
  | Raise (e : exn).
Arguments Ret {A} a.
Arguments Raise {A} e.

(** JSON bodies exchanged with the identity service by the CAS helpers. *)
#[warnings="-register-all"]
Inductive json :=
  | JNull
  | JStr (s : string)
  | JObj (m : gmap string json).

(** ** The data of a request *)

(** [request.user]: the fields the views read. *)
Record User := mkUser {
  username : string;
  token_id : string;          (* request.user.token.id *)
  endpoint : string;
  is_authenticated : bool
}.

(** [keystone_client.Client(endpoint=, token=, insecure=)]: with an endpoint
    given the constructor only records its arguments. *)
Record Client := mkClient {
  client_endpoint : val;
  client_token : val;
  client_insecure : bool
}.

(** [HTTPClient(auth_url=, insecure=)]. *)
Record HTTPClient := mkHTTPClient {
  http_auth_url : string;
  http_insecure : bool
}.

(** The responses the views build themselves are redirects. *)
Inductive Response :=
  | HttpResponseRedirect (redirect_to : string).

(** [django.conf.settings]; [getattr(settings, name, default)] reads an
    optional field. *)
Record Settings := mkSettings {
  AVAILABLE_REGIONS : option (list (string * string));   (* (auth_url, display name) *)
  OPENSTACK_SSL_NO_VERIFY : option bool;
  LOGIN_REDIRECT_URL : string;
  OPENSTACK_KEYSTONE_URL : string
}.

(** The part of the request the views only read: [request.REQUEST] and
    [request.get_host()]. *)
Record Request := mkRequest {
  REQUEST : gmap string string;
  host : string
}.

(** The part of the request the views and their collaborators mutate. *)
Record Store := mkStore {
  heap : gmap loc obj;
  session : gmap string val;      (* request.session *)
  user : User                     (* request.user *)
}.

Inductive LogLevel := DEBUG | INFO | WARNING | ERROR.

(** What the module does, in order: its log records, its calls to the
    identity service, and its calls to [urljoin] with the value each
    returned (a call whose value is not used leaves no other mark). *)
Inductive Event :=
  | Log (level : LogLevel) (msg : string)
  | TokensAuthenticate (c : Client) (tenant_id : string) (token : string)
  | TokensDelete (c : Client) (token : val)
  | HttpRequest (c : HTTPClient) (url method : string) (body : json)
  | UrlJoin (base url result : string).

(** The whole state a view runs in; [W] is the state of the identity
    service. *)
Record State (W : Type) := mkState {
  store : Store;
  world : W;
  trace : list Event;
  (** the argument of every [delete_all_tokens] thread started so far *)
  threads : list val
}.
Arguments mkState {W} store world trace threads.
Arguments store {W} s.
Arguments world {W} s.
Arguments trace {W} s.
Arguments threads {W} s.

(** ** The collaborators *)

(** A collaborator that is handed the request may change the store (rebind
    or empty the session, replace the user, mutate the objects of the heap)
    and talk to the identity service.  It is taken to return: no claim is
    about an exception raised inside Django. *)
Definition Collab (W A : Type) : Type := Store → W → A * Store * W.

Class Env := mkEnv {
  (** the state of the identity service *)
  W : Type;
  (** the scoped token [client.tokens.authenticate] returns *)
  Token : Type;
  (** the response object of [HTTPClient.request] *)
  HttpResp : Type;
  settings : Settings;
  (** keystoneclient: these calls may raise *)
  tokens_authenticate : Client → string → string → W → res Token * W;
  tokens_delete : Client → val → W → res unit * W;
  http_request : HTTPClient → string → string → json → W → res (HttpResp * json) * W;
  (** django.contrib.auth: [authenticate(request=, username=, password=None,
      unscoped_token=, tenant=None, auth_url=)], [login], [logout_then_login] *)
  django_auth : option string → val → string → Collab W (option User);
  django_do_login : option User → Collab W unit;
  django_logout : Collab W Response;
  (** .user *)
  set_session_from_user : User → Collab W unit;
  create_user_from_token : Token → string → Collab W User;
  (** .forms: [Login.get_region_choices()] *)
  get_region_choices : list (string * string);
  (** django.utils.http (or .utils): [is_safe_url(url=, host=)] *)
  is_safe_url : string → string → bool;
  (** urlparse *)
  urljoin : string → string → string
}.

(** [REDIRECT_FIELD_NAME] of django.contrib.auth. *)
Definition REDIRECT_FIELD_NAME : string := "next".

Definition dq : string := String "034"%char EmptyString.

(** ** The monad of the views *)

Section Views.
Context `{E : Env}.

Definition M (A : Type) : Type := State W → res A * State W.

Definition ret {A} (a : A) : M A := λ st, (Ret a, st).

Definition bind {A B} (m : M A) (k : A → M B) : M B :=
  λ st, match m st with
        | (Ret a, st') => k a st'
        | (Raise e, st') => (Raise e, st')
        end.

Definition raise {A} (e : exn) : M A := λ st, (Raise e, st).

(** [try: body / except <catches> as e: handler e]. *)
Definition try_except {A} (body : M A) (catches : exn → bool) (handler : exn → M A) : M A :=
  λ st, match body st with
        | (Ret a, st') => (Ret a, st')
        | (Raise e, st') => if catches e then handler e st' else (Raise e, st')
        end.

#[export] Instance M_ret : MRet M := @ret.
#[export] Instance M_bind : MBind M := λ A B k m, bind m k.

Definition lift_res {A} (r : res A) : M A := λ st, (r, st).

Definition with_store (f : Store → Store) : M unit :=
  λ st, (Ret tt, mkState (f (store st)) (world st) (trace st) (threads st)).

Definition emit (ev : Event) : M unit :=
  λ st, (Ret tt, mkState (store st) (world st) (trace st ++ [ev]) (threads st)).

(** [LOG.debug], [LOG.info], [LOG.warning]; [LOG.exception] logs at ERROR. *)
Definition LOG (level : LogLevel) (msg : string) : M unit := emit (Log level msg).

(** A call to a collaborator that is handed the request. *)
Definition call {A} (c : Collab W A) : M A :=
  λ st, let '(a, s, w) := c (store st) (world st) in
        (Ret a, mkState s w (trace st) (threads st)).

(** A call to the identity service. *)
Definition remote {A} (c : W → res A * W) : M A :=
  λ st, let '(r, w) := c (world st) in
        (r, mkState (store st) w (trace st) (threads st)).

(** [Thread(target=delete_all_tokens, args=(arg,)).start()]. *)
Definition thread_start (arg : val) : M unit :=
  λ st, (Ret tt, mkState (store st) (world st) (trace st) (threads st ++ [arg])).

Definition get_user : M User := λ st, (Ret (user (store st)), st).

(** [request.session[key]]. *)
Definition session_getitem (key : string) : M val :=
  λ st, match session (store st) !! key with
        | Some v => (Ret v, st)
        | None => (Raise KeyError, st)
        end.

(** [key in request.session]. *)
Definition session_contains (key : string) : M bool :=
  λ st, (Ret (bool_decide (is_Some (session (store st) !! key))), st).

(** [request.session[key] = v]. *)
Definition session_setitem (key : string) (v : val) : M unit :=
  with_store (λ s, mkStore (heap s) (<[key := v]> (session s)) (user s)).

(** [v[key]] for a string key. *)
Definition getitem_in (h : gmap loc obj) (v : val) (key : string) : res val :=
  match v with
  | VRef l =>
      match h !! l with
      | Some (ODict d) =>
          match d !! key with Some x => Ret x | None => Raise KeyError end
      | _ => Raise TypeError
      end
  | _ => Raise TypeError
  end.

Definition getitem (v : val) (key : string) : M val :=
  λ st, (getitem_in (heap (store st)) v key, st).

(** [v[i]] for an integer index [i >= 0]. *)
Definition subscript_in (h : gmap loc obj) (v : val) (i : nat) : res val :=
  match v with
  | VTuple xs =>
      match xs !! i with Some x => Ret x | None => Raise IndexError end
  | VStr s =>
      match String.get i s with
      | Some c => Ret (VStr (String c EmptyString))
      | None => Raise IndexError
      end
  | VRef l =>
      match h !! l with
      | Some (OList xs) =>
          match xs !! i with Some x => Ret x | None => Raise IndexError end
      | Some (ODict _) => Raise KeyError
      | None => Raise TypeError
      end
  | VNone => Raise TypeError
  end.

Definition subscript (v : val) (i : nat) : M val :=
  λ st, (subscript_in (heap (store st)) v i, st).

Fixpoint chars (s : string) : list val :=
  match s with
  | EmptyString => []
  | String c s' => VStr (String c EmptyString) :: chars s'
  end.

(** The items an iteration over [v] yields. *)
Definition iter_in (h : gmap loc obj) (v : val) : res (list val) :=
  match v with
  | VTuple xs => Ret xs
  | VStr s => Ret (chars s)
  | VRef l =>
      match h !! l with
      | Some (OList xs) => Ret xs
      | Some (ODict d) => Ret ((λ kv, VStr kv.1) <$> map_to_list d)
      | None => Raise TypeError
      end
  | VNone => Raise TypeError
  end.

Definition py_iter (v : val) : M (list val) :=
  λ st, (iter_in (heap (store st)) v, st).

(** [list(v)]: a NEW list object holding the items of [v]. *)
Definition py_list (v : val) : M val :=
  λ st, match iter_in (heap (store st)) v with
        | Ret xs =>
            let s := store st in
            let l := fresh (dom (heap s)) in
            (Ret (VRef l),
             mkState (mkStore (<[l := OList xs]> (heap s)) (session s) (user s))
                     (world st) (trace st) (threads st))
        | Raise e => (Raise e, st)
        end.

(** [for x in xs: body x]. *)
Fixpoint for_each {A} (xs : list A) (body : A → M unit) : M unit :=
  match xs with
  | [] => ret tt
  | x :: xs' => body x ;; for_each xs' body
  end.

(** [dict(pairs)]: a later pair overrides an earlier one with the same key. *)
Definition py_dict (pairs : list (string * string)) : gmap string string :=
  foldl (λ d kv, <[kv.1 := kv.2]> d) ∅ pairs.

(** [shortcuts.redirect(to)] for a URL. *)
Definition redirect (to : string) : Response := HttpResponseRedirect to.

(** ** Calls to the identity service

    Each call is recorded in the trace before it is made, so that the trace
    lists the attempts, whatever their outcome. *)

(** [client.tokens.authenticate(tenant_id=, token=)]. *)
Definition client_tokens_authenticate (client : Client) (tenant_id token : string) : M Token :=
  emit (TokensAuthenticate client tenant_id token) ;;
  remote (tokens_authenticate client tenant_id token).

(** [client.tokens.delete(token=)]. *)
Definition client_tokens_delete (client : Client) (token : val) : M unit :=
  emit (TokensDelete client token) ;;
  remote (tokens_delete client token).

(** [client.request(url, method, body=)]. *)
Definition client_request (client : HTTPClient) (url method : string) (body : json)
    : M (HttpResp * json) :=
  emit (HttpRequest client url method body) ;;
  remote (http_request client url method body).

(** [urljoin(base, url)]: the call is recorded with its value. *)
Definition py_urljoin (base url : string) : M string :=
  emit (UrlJoin base url (urljoin base url)) ;;
  mret (urljoin base url).

(** [body[key]] on a decoded JSON body. *)
Definition json_getitem (j : json) (key : string) : M json :=
  lift_res match j with
           | JObj m => match m !! key with Some x => Ret x | None => Raise KeyError end
           | _ => Raise TypeError
           end.

(** ** The views

    [switch] and [switch_region] are wrapped by Django's [login_required],
    which lets only authenticated requests reach them; the definitions are
    the functions themselves. *)

(** [logout(request)], lines 78-87. *)
Definition logout (req : Request) : M Response :=
  u ← get_user ;
  LOG INFO ("Logging out user " +:+ dq +:+ username u +:+ dq +:+ ".") ;;
  has_token_list ← session_contains "token_list" ;
  (if has_token_list : bool then
     token_list ← session_getitem "token_list" ;
     copy ← py_list token_list ;
     thread_start copy
   else mret tt) ;;
  call django_logout.

(** The body of the [try] of [delete_all_tokens], lines 94-99. *)
Definition delete_token (insecure : bool) (token_tuple : val) : M unit :=
  endpoint ← subscript token_tuple 0 ;
  token ← subscript token_tuple 1 ;
  let client := mkClient endpoint token insecure in
  client_tokens_delete client token.

(** [delete_all_tokens(token_list)], lines 90-101. *)
Definition delete_all_tokens (token_list : val) : M unit :=
  let insecure := default false (OPENSTACK_SSL_NO_VERIFY settings) in
  items ← py_iter token_list ;
  for_each items (λ token_tuple,
    try_except (delete_token insecure token_tuple)
      is_ClientException
      (λ e, LOG INFO "Could not delete token")).

(** [switch(request, tenant_id, redirect_field_name)], lines 104-135. *)
Definition switch (req : Request) (tenant_id : string)
    (redirect_field_name : string) : M Response :=
  u ← get_user ;
  LOG DEBUG ("Switching to tenant " +:+ tenant_id +:+ " for user "
             +:+ dq +:+ username u +:+ dq +:+ ".") ;;
  let insecure := default false (OPENSTACK_SSL_NO_VERIFY settings) in
  u ← get_user ;
  let endpoint_ := endpoint u in
  let client := mkClient (VStr endpoint_) VNone insecure in
  token ← try_except
    (u ← get_user ;
     token ← client_tokens_authenticate client tenant_id (token_id u) ;
     u ← get_user ;
     LOG INFO ("Tenant switch successful for user " +:+ dq +:+ username u +:+ dq +:+ ".") ;;
     mret (Some token))
    is_ClientException
    (λ _,
     u ← get_user ;
     LOG WARNING ("Tenant switch failed for user " +:+ dq +:+ username u +:+ dq +:+ ".") ;;
     LOG ERROR "An error occurred while switching sessions." ;;
     mret None) ;
  (* Ensure the user-originating redirection url is safe. *)
  let redirect_to := default EmptyString (REQUEST req !! redirect_field_name) in
  let redirect_to :=
    if negb (is_safe_url redirect_to (host req))
    then LOGIN_REDIRECT_URL settings else redirect_to in
  match token with
  | Some token =>
      user_ ← call (create_user_from_token token endpoint_) ;
      call (set_session_from_user user_)
  | None => mret tt
  end ;;
  mret (redirect redirect_to).

(** The local [region_urls] of [switch_region], lines 145-146. *)
Definition region_urls (region_name : string) : list string :=
  let available_regs := default [] (AVAILABLE_REGIONS settings) in
  (λ r, r.1) <$> filter (λ r, r.2 = region_name) available_regs.

(** [switch_region(request, region_name, redirect_field_name)],
    lines 138-182.  A [return] inside the [except] leaves the function: the
    [try] yields either that response or the two values it bound. *)
Definition switch_region (req : Request) (region_name : string)
    (redirect_field_name : string) : M Response :=
  match region_urls region_name with
  | [] =>
      (* this should never happen, just redirect *)
      call django_logout
  | auth_url :: _ =>
      LOG DEBUG ("Switching to " +:+ region_name +:+ " at " +:+ auth_url) ;;
      cached ← try_except
        (region_tokens ← session_getitem "region_tokens" ;
         unscoped_token ← getitem region_tokens auth_url ;
         mret (inr (region_tokens, unscoped_token)))
        is_KeyError
        (λ _, resp ← call django_logout ; mret (inl resp)) ;
      match cached with
      | inl resp => mret resp
      | inr (region_tokens, unscoped_token) =>
          u ← get_user ;
          user_ ← call (django_auth (Some (username u)) unscoped_token auth_url) ;
          call (django_do_login user_) ;;
          u ← get_user ;
          if negb (is_authenticated u) then call django_logout
          else
            u ← get_user ;
            call (set_session_from_user u) ;;
            let regions := py_dict get_region_choices in
            u ← get_user ;
            let region := endpoint u in
            let region_name := regions !! region in
            session_setitem "region_endpoint" (VStr region) ;;
            session_setitem "region_name" (from_option VStr VNone region_name) ;;
            session_setitem "region_tokens" region_tokens ;;
            let redirect_to := default EmptyString (REQUEST req !! redirect_field_name) in
            let redirect_to :=
              if negb (is_safe_url redirect_to (host req))
              then LOGIN_REDIRECT_URL settings else redirect_to in
            LOG DEBUG ("Redirecting to " +:+ redirect_to) ;;
            mret (redirect redirect_to)
      end
  end.

(** [_retrieve_cas_token(auth_url, insecure, ticket, service)], lines 185-193. *)
Definition _retrieve_cas_token (auth_url : string) (insecure : bool)
    (ticket service : string) : M json :=
  let client := mkHTTPClient auth_url insecure in
  let params :=
    JObj {[ "auth" := JObj {[ "casCredentials" :=
      JObj (<["ticket" := JStr ticket]> {[ "service" := JStr service ]}) ]} ]} in
  (* XXX why this does not work? *)
  url ← py_urljoin auth_url "tokens" ;
  '(resp, body) ← client_request client (auth_url +:+ "/tokens") "POST" params ;
  access ← json_getitem body "access" ;
  token ← json_getitem access "token" ;
  json_getitem token "id".

(** [_retrieve_cas_url(auth_url, insecure, service)], lines 196-203. *)
Definition _retrieve_cas_url (auth_url : string) (insecure : bool)
    (service : string) : M json :=
  let client := mkHTTPClient auth_url insecure in
  let params :=
    JObj {[ "auth" := JObj {[ "casCredentials" :=
      JObj {[ "service" := JStr service ]} ]} ]} in
  (* XXX why this does not work? *)
  url ← py_urljoin auth_url "tokens" ;
  '(resp, body) ← client_request client (auth_url +:+ "/tokens") "POST" params ;
  json_getitem body "cas_login_url".

End Views.

(** ** Variations of an environment *)

(** The same collaborators with another [urljoin]. *)
Definition with_urljoin (uj : string → string → string) (E : Env) : Env :=
  mkEnv W Token HttpResp settings tokens_authenticate tokens_delete http_request
        django_auth django_do_login django_logout set_session_from_user
        create_user_from_token get_region_choices is_safe_url uj.

(** The same collaborators with another [AVAILABLE_REGIONS] setting. *)
Definition with_available_regions (regs : option (list (string * string))) (E : Env) : Env :=
  mkEnv W Token HttpResp
        (mkSettings regs (OPENSTACK_SSL_NO_VERIFY settings)
                    (LOGIN_REDIRECT_URL settings) (OPENSTACK_KEYSTONE_URL settings))
        tokens_authenticate tokens_delete http_request
        django_auth django_do_login django_logout set_session_from_user
        create_user_from_token get_region_choices is_safe_url urljoin.

(** ** A model of [is_safe_url] *)

Fixpoint take_until (stop : ascii → bool) (s : string) : string :=
  match s with
  | EmptyString => EmptyString
  | String c s' => if stop c then EmptyString else String c (take_until stop s')
  end.

Fixpoint drop_string (n : nat) (s : string) : string :=
  match n, s with
  | S n', String _ s' => drop_string n' s'
  | _, _ => s
  end.

Fixpoint all_chars (p : ascii → bool) (s : string) : bool :=
  match s with
  | EmptyString => true
  | String c s' => p c && all_chars p s'
  end.

Definition is_scheme_char (c : ascii) : bool :=
  let n := nat_of_ascii c in
  ((97 <=? n) && (n <=? 122)) || ((65 <=? n) && (n <=? 90))
  || ((48 <=? n) && (n <=? 57))
  || Ascii.eqb c "+" || Ascii.eqb c "-" || Ascii.eqb c ".".

(** What follows the [scheme:] of a URL, or the URL itself when it has no
    scheme. *)
Definition after_scheme (url : string) : string :=
  let pre := take_until (Ascii.eqb ":") url in
  if (String.length pre <? String.length url)
     && (0 <? String.length pre) && all_chars is_scheme_char pre
  then drop_string (S (String.length pre)) url
  else url.

(** The network location of a URL: what stands between a leading [//] and
    the next [/], [?] or [#]. *)
Definition netloc (url : string) : string :=
  let rest := after_scheme url in
  if String.prefix "//" rest
  then take_until (λ c, Ascii.eqb c "/" || Ascii.eqb c "?" || Ascii.eqb c "#")
                  (drop_string 2 rest)
  else EmptyString.

(** Modelled from the spec: [is_safe_url] (django.utils.http, or the
    fallback in [.utils]; neither is under src/).  The spec asks for "a
    same-host relative URL": a non-empty URL that names no host, or names
    the host of the request. *)
Definition is_safe_url_model (url host : string) : bool :=
  (0 <? String.length url)
  && (String.eqb (netloc url) EmptyString || String.eqb (netloc url) host).

(** ** A sample deployment

    Two regions, an identity service that refuses the tenant [forbidden] and
    the token [expired], and a login that rotates the session (the session
    is emptied, which is why the views write the session after it). *)

Definition sample_regions : list (string * string) :=
  [("http://r1.example:5000/v2.0", "RegionOne");
   ("http://r2.example:5000/v2.0", "RegionTwo")].

Definition sample_settings : Settings :=
  mkSettings (Some sample_regions) None "/home/" "http://r1.example:5000/v2.0".

Definition anonymous : User := mkUser EmptyString EmptyString EmptyString false.

(** The state of the sample identity service: the tokens deleted so far. *)
Definition sample_authenticate (c : Client) (tenant_id token : string) (w : list val)
    : res string * list val :=
  if String.eqb tenant_id "forbidden"
  then (Raise (ClientException "Unauthorized"), w)
  else (Ret ("scoped:" +:+ tenant_id), w).

Definition sample_delete (c : Client) (token : val) (w : list val)
    : res unit * list val :=
  match token with
  | VStr "expired" => (Raise (ClientException "NotFound"), w)
  | _ => (Ret tt, w ++ [token])
  end.

Definition sample_http_request (c : HTTPClient) (url method : string) (body : json)
    (w : list val) : res (nat * json) * list val :=
  (Ret (200, JObj {[ "access" := JObj {[ "token" := JObj {[ "id" := JStr "unscoped" ]} ]} ]}), w).

Definition sample_auth (username : option string) (unscoped_token : val)
    (auth_url : string) : Collab (list val) (option User) :=
  λ s w,
    match unscoped_token with
    | VStr t => (Some (mkUser (default EmptyString username) ("scoped:" +:+ t) auth_url true), s, w)
    | _ => (None, s, w)
    end.

Definition sample_do_login (u : option User) : Collab (list val) unit :=
  λ s w,
    match u with
    | Some u => (tt, mkStore (heap s) ∅ u, w)
    | None => (tt, s, w)
    end.

Definition sample_logout : Collab (list val) Response :=
  λ s w, (HttpResponseRedirect "/auth/login/", mkStore (heap s) ∅ anonymous, w).

Definition sample_set_session_from_user (u : User) : Collab (list val) unit :=
  λ s w, (tt, mkStore (heap s) (<["token" := VStr (token_id u)]> (session s)) (user s), w).

Definition sample_create_user_from_token (token endpoint_ : string)
    : Collab (list val) User :=
  λ s w, (mkUser (username (user s)) token endpoint_ true, s, w).

(** A join that replaces what follows the last [/] of the base. *)
Fixpoint up_to_last_slash (s : string) : string :=
  match s with
  | EmptyString => EmptyString
  | String c s' =>
      if all_chars (λ c', negb (Ascii.eqb c' "/")) s'
      then (if Ascii.eqb c "/" then String c EmptyString else EmptyString)
      else String c (up_to_last_slash s')
  end.

Definition sample_urljoin (base url : string) : string :=
  up_to_last_slash base +:+ url.

Definition sample_env : Env :=
  mkEnv (list val) string nat sample_settings
        sample_authenticate sample_delete sample_http_request
        sample_auth sample_do_login sample_logout
        sample_set_session_from_user sample_create_user_from_token
        sample_regions is_safe_url_model sample_urljoin.

Definition alice : User :=
  mkUser "alice" "scoped:t1" "http://r1.example:5000/v2.0" true.

(** Alice's session in region one: a token cached for each region, and the
    tokens collected so far. *)
Definition sample_heap : gmap loc obj :=
  <[1%positive := ODict (<["http://r1.example:5000/v2.0" := VStr "u1"]>
                          {["http://r2.example:5000/v2.0" := VStr "u2"]})]>
  {[2%positive := OList [VTuple [VStr "http://r1.example:5000/v2.0"; VStr "expired"];
                         VTuple [VStr "http://r1.example:5000/v2.0"; VStr "scoped:t1"]]]}.

Definition sample_session : gmap string val :=
  <["region_endpoint" := VStr "http://r1.example:5000/v2.0"]>
  (<["region_name" := VStr "RegionOne"]>
  (<["region_tokens" := VRef 1%positive]>
  {["token_list" := VRef 2%positive]})).

Definition sample_state : State (list val) :=
  mkState (mkStore sample_heap sample_session alice) [] [] [].

Definition sample_request (next : string) : Request :=
  mkRequest {[ REDIRECT_FIELD_NAME := next ]} "myapp.example".

(** Three entries, two of them named [East]. *)
Definition twin_regions : list (string * string) :=
  [("http://a.example/v2.0", "East");
   ("http://b.example/v2.0", "West");
   ("http://c.example/v2.0", "East")].

Definition twin_env : Env := with_available_regions (Some twin_regions) sample_env.

(** A session whose mapping holds a token for region one only. *)
Definition stale_state : State (list val) :=
  mkState
    (mkStore {[ 1%positive := ODict {[ "http://r1.example:5000/v2.0" := VStr "u1" ]} ]}
             {[ "region_tokens" := VRef 1%positive ]} alice)
    [] [] [].

(** A token list whose second item has no token. *)
Definition broken_token_list : val :=
  VTuple [VTuple [VStr "http://r1.example:5000/v2.0"; VStr "t1"];
          VTuple [VStr "http://r1.example:5000/v2.0"];
          VTuple [VStr "http://r1.example:5000/v2.0"; VStr "t3"]].

(** ** Reading the reaper's trace *)

Definition is_delete_attempt (ev : Event) : bool :=
  match ev with TokensDelete _ _ => true | _ => false end.

(** The deletion attempts of a trace, in order. *)
Definition delete_attempts (tr : list Event) : list Event :=
  List.filter is_delete_attempt tr.

(** An (endpoint, token) pair as an item of a token list. *)
Definition pair_item (p : val * val) : val := VTuple [p.1; p.2].

(** The attempt the reaper makes for a pair. *)
Definition attempt_of (insecure : bool) (p : val * val) : Event :=
  TokensDelete (mkClient p.1 p.2 insecure) p.2.

(** What lines 94-95 extract from an item. *)
Definition endpoint_and_token (h : gmap loc obj) (item : val) : res (val * val) :=
  match subscript_in h item 0 with
  | Ret endpoint_ =>
      match subscript_in h item 1 with
      | Ret token => Ret (endpoint_, token)
      | Raise e => Raise e
      end
  | Raise e => Raise e
  end.

Section Reaper.
Context `{E : Env}.

(** One turn of the loop of [delete_all_tokens], and the loop. *)
Definition reap_step (insecure : bool) (token_tuple : val) : M unit :=
  try_except (delete_token insecure token_tuple)
    is_ClientException
    (λ e, LOG INFO "Could not delete token").

Definition reap (insecure : bool) (items : list val) : M unit :=
  for_each items (reap_step insecure).

(** The events of a run over pairs, and the state the identity service is
    left in: one attempt per pair, followed by a log record when, and only
    when, that attempt raised. *)
Fixpoint reaper_events (insecure : bool) (ps : list (val * val)) (w : W)
    : list Event * W :=
  match ps with
  | [] => ([], w)
  | p :: ps' =>
      let '(r, w') := tokens_delete (mkClient p.1 p.2 insecure) p.2 w in
      let '(evs, w'') := reaper_events insecure ps' w' in
      (attempt_of insecure p
       :: match r with
          | Ret _ => []
          | Raise _ => [Log INFO "Could not delete token"]
          end ++ evs,
       w'')
  end.

End Reaper.

(** ** The other views of the module

    [_unscoped_token_login] needs nothing new.  [cas_login] also calls
    [cas.views._service_url], and [login] hands the request to Django's
    login view; they get an interface each. *)

(** [if v:], the truth value of [v]. *)
Definition truthy_in (h : gmap loc obj) (v : val) : bool :=
  match v with
  | VNone => false
  | VStr s => negb (String.eqb s EmptyString)
  | VTuple xs => match xs with [] => false | _ :: _ => true end
  | VRef l =>
      match h !! l with
      | Some (OList xs) => match xs with [] => false | _ :: _ => true end
      | Some (ODict d) => match map_to_list d with [] => false | _ :: _ => true end
      | None => true
      end
  end.

(** A decoded JSON value as the Python object it is: a string, [None], or
    a new dict holding the values of the object. *)
Fixpoint py_of_json (j : json) (h : gmap loc obj) : val * gmap loc obj :=
  match j with
  | JNull => (VNone, h)
  | JStr s => (VStr s, h)
  | JObj m =>
      let '(d, h') :=
        map_fold (λ key j' (acc : gmap string val * gmap loc obj),
                    let '(v, h'') := py_of_json j' acc.2 in
                    (<[key := v]> acc.1, h''))
                 (∅, h) m in
      let l := fresh (dom h') in
      (VRef l, <[l := ODict d]> h')
  end.

Inductive AuthForm :=
  | FormBound                                   (* curry(Login, request) *)
  | FormInitial (initial : gmap string string). (* curry(Login, initial=initial) *)

Inductive ctxval :=
  | CStr (s : string)
  | CBool (b : bool).

(** What [login] reads of its request: [request.GET], [request.method] and
    [request.is_ajax()]. *)
Record LoginRequest := mkLoginRequest {
  GET : gmap string string;
  method : string;
  is_ajax : bool
}.

Class CasEnv `{E : Env} := mkCasEnv {
  (** cas.views: [_service_url(request, None, False)] *)
  _service_url : Request → string;
  (** [shortcuts.redirect(to)] for a [to] that is not a string *)
  redirect_other : val → res Response
}.

Class LoginEnv `{E : Env} := mkLoginEnv {
  (** what Django's login view returns: a page or a redirect *)
  LoginResponse : Type;
  (** django.contrib.auth.views: [login(request, template_name=,
      authentication_form=, extra_context=)] *)
  django_login : LoginRequest → string → AuthForm → gmap string ctxval
                 → Collab W LoginResponse
}.

Section MoreViews.
Context `{E : Env}.

Definition truthy (v : val) : M bool :=
  λ st, (Ret (truthy_in (heap (store st)) v), st).

(** [request.session.get(key, default)]. *)
Definition session_get (key : string) (default_ : val) : M val :=
  λ st, (Ret (default default_ (session (store st) !! key)), st).

Definition py_value (j : json) : M val :=
  λ st, let s := store st in
        let '(v, h) := py_of_json j (heap s) in
        (Ret v, mkState (mkStore h (session s) (user s)) (world st) (trace st) (threads st)).

(** [_unscoped_token_login(request, auth_url, unscoped_token, region_tokens,
    redirect_field_name)], lines 206-233. *)
Definition _unscoped_token_login (req : Request) (auth_url : string)
    (unscoped_token region_tokens : val) (redirect_field_name : string) : M Response :=
  user_ ← call (django_auth None unscoped_token auth_url) ;
  call (django_do_login user_) ;;
  u ← get_user ;
  if negb (is_authenticated u) then call django_logout
  else
    u ← get_user ;
    call (set_session_from_user u) ;;
    let regions := py_dict get_region_choices in
    u ← get_user ;
    let region := endpoint u in
    let region_name := regions !! region in
    session_setitem "region_endpoint" (VStr region) ;;
    session_setitem "region_name" (from_option VStr VNone region_name) ;;
    has_region_tokens ← truthy region_tokens ;
    (if has_region_tokens : bool
     then session_setitem "region_tokens" region_tokens
     else mret tt) ;;
    let redirect_to := default EmptyString (REQUEST req !! redirect_field_name) in
    let redirect_to :=
      if negb (is_safe_url redirect_to (host req))
      then LOGIN_REDIRECT_URL settings else redirect_to in
    LOG DEBUG ("Redirecting to " +:+ redirect_to) ;;
    mret (redirect redirect_to).

Section Cas.
Context `{C : !CasEnv}.

(** [shortcuts.redirect(to)] for any value. *)
Definition shortcuts_redirect (to : val) : M Response :=
  match to with
  | VStr url => mret (redirect url)
  | _ => lift_res (redirect_other to)
  end.

(** [cas_login(request)], lines 237-248.  [region_tokens] and
    [redirect_field_name] take their defaults in the call of
    [_unscoped_token_login]. *)
Definition cas_login (req : Request) : M Response :=
  let ticket := REQUEST req !! "ticket" in
  let service := _service_url req in
  let auth_url := OPENSTACK_KEYSTONE_URL settings in
  let insecure := default false (OPENSTACK_SSL_NO_VERIFY settings) in
  match ticket with
  | Some (String c t) =>
      token ← _retrieve_cas_token auth_url insecure (String c t) service ;
      token ← py_value token ;
      _unscoped_token_login req auth_url token VNone REDIRECT_FIELD_NAME
  | _ =>
      url ← _retrieve_cas_url auth_url insecure service ;
      url ← py_value url ;
      shortcuts_redirect url
  end.

End Cas.

Section Login.
Context `{L : !LoginEnv}.

(** [login(request)], lines 36-75. *)
Definition login (req : LoginRequest) : M LoginResponse :=
  (* Get our initial region for the form. *)
  let initial : gmap string string := ∅ in
  current_region ← session_get "region_endpoint" VNone ;
  let requested_region := GET req !! "region" in
  let regions := py_dict (default [] (AVAILABLE_REGIONS settings)) in
  let initial :=
    match requested_region with
    | Some r =>
        if bool_decide (is_Some (regions !! r))
           && negb (match current_region with
                    | VStr s => String.eqb s r
                    | _ => false
                    end)
        then <["region" := r]> initial
        else initial
    | None => initial
    end in
  let form :=
    if String.eqb (method req) "POST" then FormBound else FormInitial initial in
  let extra_context : gmap string ctxval :=
    {[ "redirect_field_name" := CStr REDIRECT_FIELD_NAME ]} in
  let '(template_name, extra_context) :=
    if is_ajax req
    then ("auth/_login.html", <["hide" := CBool true]> extra_context)
    else ("auth/login.html", extra_context) in
  res ← call (django_login req template_name form extra_context) ;
  (* Set the session data here because django's session key rotation
     will erase it if we set it earlier. *)
  u ← get_user ;
  (if is_authenticated u then
     u ← get_user ;
     call (set_session_from_user u) ;;
     let regions := py_dict get_region_choices in
     u ← get_user ;
     let region := endpoint u in
     let region_name := regions !! region in
     session_setitem "region_endpoint" (VStr region) ;;
     session_setitem "region_name" (from_option VStr VNone region_name)
   else mret tt) ;;
  mret res.

End Login.
End MoreViews.

(** ** Reading a trace *)

Definition is_log (ev : Event) : bool :=
  match ev with Log _ _ => true | _ => false end.

(** The calls recorded in a trace (what is not a log record), in order. *)
Definition identity_calls (tr : list Event) : list Event :=
  List.filter (λ ev, negb (is_log ev)) tr.

(** The events the reaper may add. *)
Definition is_reaper_event (ev : Event) : bool :=
  match ev with
  | TokensDelete _ _ => true
  | Log INFO "Could not delete token" => true
  | _ => false
  end.

(** [body[k1][k2]...] on a decoded JSON body. *)
Fixpoint json_path (j : json) (keys : list string) : res json :=
  match keys with
  | [] => Ret j
  | key :: keys' =>
      match j with
      | JObj m =>
          match m !! key with
          | Some j' => json_path j' keys'
          | None => Raise KeyError
          end
      | _ => Raise TypeError
      end
  end.

(** ** What [login] hands to Django's login view *)

Section LoginArguments.
Context `{E : Env}.

(** The form of lines 42-52, for a session whose [region_endpoint] is
    [current_region] ([None] when the key is absent). *)
Definition login_form (current_region : val) (req : LoginRequest) : AuthForm :=
  let regions := py_dict (default [] (AVAILABLE_REGIONS settings)) in
  let initial : gmap string string :=
    match GET req !! "region" with
    | Some r =>
        if bool_decide (is_Some (regions !! r))
           && negb (match current_region with
                    | VStr s => String.eqb s r
                    | _ => false
                    end)
        then <["region" := r]> ∅ else ∅
    | None => ∅
    end in
  if String.eqb (method req) "POST" then FormBound else FormInitial initial.

End LoginArguments.

(** The template and the context of lines 54-60. *)
Definition login_template (req : LoginRequest) : string :=
  if is_ajax req then "auth/_login.html" else "auth/login.html".

Definition login_context (req : LoginRequest) : gmap string ctxval :=
  if is_ajax req
  then <["hide" := CBool true]> {[ "redirect_field_name" := CStr REDIRECT_FIELD_NAME ]}
  else {[ "redirect_field_name" := CStr REDIRECT_FIELD_NAME ]}.

(** ** More sample deployments *)

(** An identity service that cannot be reached for the tenant [down] and
    for the token [unreachable]: these calls fail with an error that is not
    a client error. *)
Definition flaky_authenticate (c : Client) (tenant_id token : string) (w : list val)
    : res string * list val :=
  if String.eqb tenant_id "down"
  then (Raise (OtherException "ConnectionError"), w)
  else sample_authenticate c tenant_id token w.

Definition flaky_delete (c : Client) (token : val) (w : list val)
    : res unit * list val :=
  match token with
  | VStr "unreachable" => (Raise (OtherException "ConnectionError"), w)
  | _ => sample_delete c token w
  end.

Definition flaky_env : Env :=
  mkEnv (list val) string nat sample_settings
        flaky_authenticate flaky_delete sample_http_request
        sample_auth sample_do_login sample_logout
        sample_set_session_from_user sample_create_user_from_token
        sample_regions is_safe_url_model sample_urljoin.

(** A login that leaves an anonymous user when it is given no user. *)
Definition strict_do_login (u : option User) : Collab (list val) unit :=
  λ s w,
    match u with
    | Some u => (tt, mkStore (heap s) ∅ u, w)
    | None => (tt, mkStore (heap s) ∅ anonymous, w)
    end.

Definition strict_env : Env :=
  mkEnv (list val) string nat sample_settings
        sample_authenticate sample_delete sample_http_request
        sample_auth strict_do_login sample_logout
        sample_set_session_from_user sample_create_user_from_token
        sample_regions is_safe_url_model sample_urljoin.

(** Alice's session with an unusable token cached for region two. *)
Definition revoked_state : State (list val) :=
  mkState
    (mkStore {[ 1%positive := ODict {[ "http://r2.example:5000/v2.0" := VNone ]} ]}
             {[ "region_tokens" := VRef 1%positive ]} alice)
    [] [] [].

(** Region choices that list the second auth_url twice. *)
Definition alias_choices : list (string * string) :=
  [("http://r1.example:5000/v2.0", "RegionOne");
   ("http://r2.example:5000/v2.0", "RegionTwo");
   ("http://r2.example:5000/v2.0", "Backup")].

Definition alias_env : Env :=
  mkEnv (list val) string nat sample_settings
        sample_authenticate sample_delete sample_http_request
        sample_auth sample_do_login sample_logout
        sample_set_session_from_user sample_create_user_from_token
        alias_choices is_safe_url_model sample_urljoin.

(** The twin regions as the whole configuration, and a session of Alice
    with a token cached for each of the two [East] entries. *)
Definition east_env : Env :=
  mkEnv (list val) string nat
        (mkSettings (Some twin_regions) None "/home/" "http://a.example/v2.0")
        sample_authenticate sample_delete sample_http_request
        sample_auth sample_do_login sample_logout
        sample_set_session_from_user sample_create_user_from_token
        twin_regions is_safe_url_model sample_urljoin.

Definition east_state : State (list val) :=
  mkState
    (mkStore {[ 1%positive := ODict (<["http://a.example/v2.0" := VStr "ta"]>
                                       {[ "http://c.example/v2.0" := VStr "tc" ]}) ]}
             {[ "region_tokens" := VRef 1%positive ]} alice)
    [] [] [].

(** A configuration that lists the second auth_url twice, as [RegionTwo]
    and then as [Backup]. *)
Definition alias_config_env : Env :=
  mkEnv (list val) string nat
        (mkSettings (Some alias_choices) None "/home/" "http://r1.example:5000/v2.0")
        sample_authenticate sample_delete sample_http_request
        sample_auth sample_do_login sample_logout
        sample_set_session_from_user sample_create_user_from_token
        alias_choices is_safe_url_model sample_urljoin.

(** An identity service with CAS: a request that carries a ticket is
    answered with a token, a request without one with the login URL. *)
Definition cas_http_request (c : HTTPClient) (url method : string) (body : json)
    (w : list val) : res (nat * json) * list val :=
  match json_path body ["auth"; "casCredentials"; "ticket"] with
  | Ret (JStr "stale") => (Raise (ClientException "Unauthorized"), w)
  | Ret _ =>
      (Ret (200, JObj {[ "access" := JObj {[ "token" := JObj {[ "id" := JStr "u1" ]} ]} ]}), w)
  | Raise _ =>
      (Ret (200, JObj {[ "cas_login_url" := JStr "https://cas.example/login" ]}), w)
  end.

Definition cas_env : Env :=
  mkEnv (list val) string nat sample_settings
        sample_authenticate sample_delete cas_http_request
        sample_auth sample_do_login sample_logout
        sample_set_session_from_user sample_create_user_from_token
        sample_regions is_safe_url_model sample_urljoin.

Definition sample_cas : @CasEnv cas_env :=
  @mkCasEnv cas_env (λ req, "http://" +:+ host req +:+ "/auth/cas/login")
            (λ _, Raise TypeError).

(** A visitor who is not logged in. *)
Definition visitor_state : State (list val) :=
  mkState (mkStore ∅ ∅ anonymous) [] [] [].

Definition cas_request (ticket : option string) : Request :=
  mkRequest (from_option (λ t, {[ "ticket" := t ]}) ∅ ticket) "myapp.example".

(** Django's login view: a POST logs Alice in and redirects, anything else
    shows the form. *)
Definition sample_login_view (req : LoginRequest) (template_name : string)
    (form : AuthForm) (extra_context : gmap string ctxval)
    : Collab (list val) string :=
  λ s w,
    match form with
    | FormBound => ("redirect", mkStore (heap s) ∅ alice, w)
    | FormInitial initial =>
        (template_name +:+ "?region=" +:+ default "none" (initial !! "region"), s, w)
    end.

Definition sample_login : @LoginEnv sample_env :=
  @mkLoginEnv sample_env string sample_login_view.

Definition r1_url : string := "http://r1.example:5000/v2.0".
Definition r2_url : string := "http://r2.example:5000/v2.0".

Definition post_request : LoginRequest := mkLoginRequest ∅ "POST" false.

Definition get_request (region : string) : LoginRequest :=
  mkLoginRequest {[ "region" := region ]} "GET" true.

(** * Properties *)

(** Unfolds the monad and its primitive operations. *)
Ltac unfold_m :=
  unfold mbind, M_bind, bind, mret, M_ret, ret, raise, lift_res, try_except,
    LOG, emit, call, remote, thread_start, get_user, with_store,
    session_getitem, session_contains, session_setitem,
    getitem, subscript, py_iter, py_list in *.

(** ** Resolution of a region name *)

(** Reduces the projections of the state. *)
Ltac proj := cbn [store world trace threads heap session user fst snd] in *.

Section Resolution.
Context `{E : Env}.

Lemma region_urls_filter (regs : list (string * string)) (region_name : string) :
  AVAILABLE_REGIONS settings = Some regs →
  region_urls region_name = (filter (λ r, r.2 = region_name) regs).*1.
Proof. intros H. unfold region_urls. by rewrite H. Qed.

Lemma filter_name_absent (regs : list (string * string)) (region_name : string) :
  region_name ∉ regs.*2 → filter (λ r : string * string, r.2 = region_name) regs = [].
Proof.
  induction regs as [|[url name] regs IH]; intros Hnot; first done.
  rewrite filter_cons. simpl in *.
  destruct (decide (name = region_name)) as [->|Hne].
  - exfalso. apply Hnot. left.
  - apply IH. intros Hin. apply Hnot. by right.
Qed.

Lemma region_urls_unknown (region_name : string) :
  region_name ∉ (default [] (AVAILABLE_REGIONS settings)).*2 →
  region_urls region_name = [].
Proof.
  intros Hnot. unfold region_urls. simpl.
  by rewrite filter_name_absent.
Qed.

Lemma region_urls_first (pre post : list (string * string)) (url region_name : string) :
  AVAILABLE_REGIONS settings = Some (pre ++ (url, region_name) :: post) →
  region_name ∉ pre.*2 →
  region_urls region_name
  = url :: (filter (λ r : string * string, r.2 = region_name) post).*1.
Proof.
  intros Hregs Hpre. rewrite (region_urls_filter _ _ Hregs).
  rewrite filter_app, (filter_name_absent pre) by done.
  rewrite filter_cons. simpl. by rewrite decide_True.
Qed.

End Resolution.

(** ** The dictionary of region choices *)

Lemma py_dict_snoc (pairs : list (string * string)) (k v : string) :
  py_dict (pairs ++ [(k, v)]) = <[k := v]> (py_dict pairs).
Proof. unfold py_dict. by rewrite foldl_app. Qed.

(** [dict(pairs)[k]] is the value of the LAST pair with key [k]. *)
Lemma py_dict_lookup_last (pre post : list (string * string)) (k v : string) :
  k ∉ post.*1 → py_dict (pre ++ (k, v) :: post) !! k = Some v.
Proof.
  revert pre. induction post as [|[k' v'] post IH] using rev_ind; intros pre Hpost.
  - by rewrite py_dict_snoc, lookup_insert_eq.
  - rewrite fmap_app in Hpost. apply not_elem_of_app in Hpost as [Hpost Hk'].
    rewrite app_comm_cons, (assoc_L (++)), py_dict_snoc.
    rewrite lookup_insert_ne; first by apply IH.
    intros ->. apply Hk'. simpl. left.
Qed.

(** When every auth_url is listed once, the dictionary gives each region its
    own display name. *)
Lemma py_dict_lookup_NoDup (pairs : list (string * string)) (k v : string) :
  NoDup pairs.*1 → (k, v) ∈ pairs → py_dict pairs !! k = Some v.
Proof.
  intros Hnodup Hin.
  apply list_elem_of_split in Hin as (pre & post & ->).
  apply py_dict_lookup_last.
  rewrite fmap_app, fmap_cons in Hnodup.
  apply NoDup_app in Hnodup as (_ & _ & Hnodup).
  by apply NoDup_cons in Hnodup as [Hnot _].
Qed.

(** ** The models on small inputs *)

Example is_safe_url_model_foreign_host :
  is_safe_url_model "http://evil.example/x" "myapp.example" = false.
Proof. reflexivity. Qed.

Example is_safe_url_model_relative :
  is_safe_url_model "/dashboard" "myapp.example" = true.
Proof. reflexivity. Qed.

Example is_safe_url_model_scheme_relative :
  is_safe_url_model "//evil.example/x" "myapp.example" = false.
Proof. reflexivity. Qed.

Example is_safe_url_model_same_host :
  is_safe_url_model "http://myapp.example/x" "myapp.example" = true.
Proof. reflexivity. Qed.

Example is_safe_url_model_empty :
  is_safe_url_model EmptyString "myapp.example" = false.
Proof. reflexivity. Qed.

Example sample_urljoin_differs :
  sample_urljoin "http://r1.example:5000/v2.0" "tokens" = "http://r1.example:5000/tokens".
Proof. reflexivity. Qed.

Example region_urls_twins :
  @region_urls twin_env "East" = ["http://a.example/v2.0"; "http://c.example/v2.0"].
Proof. reflexivity. Qed.

Example py_dict_later_pair_wins :
  py_dict [("k", "first"); ("k", "second")] !! "k" = Some "second".
Proof. reflexivity. Qed.

Example subscript_short_tuple :
  subscript_in ∅ (VTuple [VStr "only"]) 1 = Raise IndexError.
Proof. reflexivity. Qed.

Example subscript_none :
  subscript_in ∅ VNone 0 = Raise TypeError.
Proof. reflexivity. Qed.

(** ** The runs of the CAS helpers *)

Section CasRuns.
Context `{E : Env}.

Lemma cas_token_full
    (auth_url : string) (insecure : bool) (ticket service : string) (st : State W) :
  let client := mkHTTPClient auth_url insecure in
  let params :=
    JObj {[ "auth" := JObj {[ "casCredentials" :=
      JObj (<["ticket" := JStr ticket]> {[ "service" := JStr service ]}) ]} ]} in
  let answer := http_request client (auth_url +:+ "/tokens") "POST" params (world st) in
  _retrieve_cas_token auth_url insecure ticket service st
  = (match answer.1 with
     | Ret (_, body) => json_path body ["access"; "token"; "id"]
     | Raise e => Raise e
     end,
     mkState (store st) answer.2
       (trace st ++ [UrlJoin auth_url "tokens" (urljoin auth_url "tokens");
                     HttpRequest client (auth_url +:+ "/tokens") "POST" params])
       (threads st)).
Proof.
  intros client params answer. subst client params answer.
  unfold _retrieve_cas_token, py_urljoin, client_request, json_getitem. unfold_m. proj.
  rewrite <- !(assoc_L (++)). cbn [app].
  destruct (http_request _ _ _ _ _) as [[[resp body]|e] w']; proj; last done.
  unfold json_path. repeat case_match; by simplify_eq/=.
Qed.

Lemma cas_url_full
    (auth_url : string) (insecure : bool) (service : string) (st : State W) :
  let client := mkHTTPClient auth_url insecure in
  let params :=
    JObj {[ "auth" := JObj {[ "casCredentials" :=
      JObj {[ "service" := JStr service ]} ]} ]} in
  let answer := http_request client (auth_url +:+ "/tokens") "POST" params (world st) in
  _retrieve_cas_url auth_url insecure service st
  = (match answer.1 with
     | Ret (_, body) => json_path body ["cas_login_url"]
     | Raise e => Raise e
     end,
     mkState (store st) answer.2
       (trace st ++ [UrlJoin auth_url "tokens" (urljoin auth_url "tokens");
                     HttpRequest client (auth_url +:+ "/tokens") "POST" params])
       (threads st)).
Proof.
  intros client params answer. subst client params answer.
  unfold _retrieve_cas_url, py_urljoin, client_request, json_getitem. unfold_m. proj.
  rewrite <- !(assoc_L (++)). cbn [app].
  destruct (http_request _ _ _ _ _) as [[[resp body]|e] w']; proj; last done.
  unfold json_path. repeat case_match; by simplify_eq/=.
Qed.

End CasRuns.

Section Properties.
Context `{E : Env}.

(** C2.  A region name that is the display name of no entry of
    [AVAILABLE_REGIONS] (an absent setting counts as the empty sequence)
    makes [switch_region] return what [django_logout(request)] returns: the
    result is a response, never an exception, the store and the identity
    service are left as [django_logout] leaves them, and the view itself
    logs nothing and starts no thread. *)
Theorem switch_region_unknown_region_logs_out
    (req : Request) (region_name redirect_field_name : string) (st : State W) :
  region_name ∉ (default [] (AVAILABLE_REGIONS settings)).*2 →
  ∃ resp s w,
    django_logout (store st) (world st) = (resp, s, w) ∧
    switch_region req region_name redirect_field_name st
    = (Ret resp, mkState s w (trace st) (threads st)).
Proof.
  intros Hnot.
  destruct (django_logout (store st) (world st)) as [[resp s] w] eqn:Hout.
  exists resp, s, w. split; first done.
  unfold switch_region. rewrite (region_urls_unknown _ Hnot).
  unfold_m. by rewrite Hout.
Qed.

(** C9.  When several entries of [AVAILABLE_REGIONS] carry the requested
    display name, [switch_region] works with the auth_url of the first of
    them in configuration order, whatever comes after it.  That auth_url
    is the head of [region_urls], and it is the one the view uses
    throughout: the one it names in its debug record, the one it looks up
    in the session's [region_tokens] (no token cached for it means logout,
    even if tokens are cached for the later entries), and the one it hands
    to [django_auth] with the token found for it. *)
Theorem switch_region_resolves_first_match
    (pre post : list (string * string)) (url region_name : string) :
  AVAILABLE_REGIONS settings = Some (pre ++ (url, region_name) :: post) →
  region_name ∉ pre.*2 →
  head (region_urls region_name) = Some url ∧
  ∀ (req : Request) (redirect_field_name : string) (st : State W),
    let debug := Log DEBUG ("Switching to " +:+ region_name +:+ " at " +:+ url) in
    let redirect_to := default EmptyString (REQUEST req !! redirect_field_name) in
    let target := if is_safe_url redirect_to (host req) then redirect_to
                  else LOGIN_REDIRECT_URL settings in
    ((session (store st) !! "region_tokens" = None
      ∨ ∃ l d, session (store st) !! "region_tokens" = Some (VRef l)
               ∧ heap (store st) !! l = Some (ODict d)
               ∧ d !! url = None) →
     ∃ resp s w,
       django_logout (store st) (world st) = (resp, s, w) ∧
       switch_region req region_name redirect_field_name st
       = (Ret resp, mkState s w (trace st ++ [debug]) (threads st)))
    ∧
    (∀ (l : loc) (d : gmap string val) (unscoped_token : val)
       (u1 : option User) (s1 s2 : Store) (w1 w2 : W),
       session (store st) !! "region_tokens" = Some (VRef l) →
       heap (store st) !! l = Some (ODict d) →
       d !! url = Some unscoped_token →
       django_auth (Some (username (user (store st)))) unscoped_token url
         (store st) (world st) = (u1, s1, w1) →
       django_do_login u1 s1 w1 = (tt, s2, w2) →
       (is_authenticated (user s2) = false →
        ∃ resp s w,
          django_logout s2 w2 = (resp, s, w) ∧
          switch_region req region_name redirect_field_name st
          = (Ret resp, mkState s w (trace st ++ [debug]) (threads st)))
       ∧
       (is_authenticated (user s2) = true →
        ∀ (s3 : Store) (w3 : W),
          set_session_from_user (user s2) s2 w2 = (tt, s3, w3) →
          switch_region req region_name redirect_field_name st
          = (Ret (HttpResponseRedirect target),
             mkState
               (mkStore (heap s3)
                  (<["region_tokens" := VRef l]>
                     (<["region_name" := from_option VStr VNone
                                           (py_dict get_region_choices
                                              !! endpoint (user s3))]>
                        (<["region_endpoint" := VStr (endpoint (user s3))]>
                           (session s3))))
                  (user s3))
               w3
               (trace st ++ [debug; Log DEBUG ("Redirecting to " +:+ target)])
               (threads st)))).
Proof.
  intros Hregs Hpre.
  pose proof (region_urls_first _ _ _ _ Hregs Hpre) as Hfirst.
  split; first by rewrite Hfirst.
  intros req field st debug redirect_to target. subst debug redirect_to target.
  split.
  - intros Hmiss.
    destruct (django_logout (store st) (world st)) as [[resp s] w] eqn:Hout.
    exists resp, s, w. split; first done.
    unfold switch_region. rewrite Hfirst. unfold_m. proj.
    destruct Hmiss as [Hnone | (l & d & Hsess & Hheap & Hd)].
    + rewrite Hnone. cbn. by rewrite Hout.
    + rewrite Hsess. unfold getitem_in. proj. rewrite Hheap, Hd. cbn. by rewrite Hout.
  - intros l d tok u1 s1 s2 w1 w2 Hsess Hheap Htok Hauth Hlogin. split.
    + intros Hno.
      destruct (django_logout s2 w2) as [[resp s] w] eqn:Hout.
      exists resp, s, w. split; first done.
      unfold switch_region. rewrite Hfirst. unfold_m. proj.
      rewrite Hsess. unfold getitem_in at 1. proj.
      rewrite Hheap, Htok. proj. rewrite Hauth. proj. rewrite Hlogin. proj.
      rewrite Hno. cbn [negb]. proj. by rewrite Hout.
    + intros Hok s3 w3 Hset.
      unfold switch_region. rewrite Hfirst. unfold_m. proj.
      rewrite Hsess. unfold getitem_in at 1. proj.
      rewrite Hheap, Htok. proj. rewrite Hauth. proj. rewrite Hlogin. proj.
      rewrite Hok. cbn [negb]. proj. rewrite Hset. proj.
      unfold with_store. proj.
      destruct (is_safe_url _ _); cbn [negb]; unfold redirect;
        by rewrite <- !(assoc_L (++)).
Qed.

(** C3.  When the requested region resolves to [auth_url] and the session
    holds no unscoped token for it (there is no [region_tokens] key, or the
    mapping it names has no entry for [auth_url]) the [KeyError] is caught
    and [switch_region] returns what [django_logout(request)] returns, run
    on the store as it was: [django_auth] is not consulted, and the only
    thing the view did before is its debug record. *)
Theorem switch_region_missing_token_logs_out
    (req : Request) (region_name redirect_field_name auth_url : string) (st : State W) :
  head (region_urls region_name) = Some auth_url →
  (session (store st) !! "region_tokens" = None
   ∨ ∃ l d, session (store st) !! "region_tokens" = Some (VRef l)
            ∧ heap (store st) !! l = Some (ODict d)
            ∧ d !! auth_url = None) →
  ∃ resp s w,
    django_logout (store st) (world st) = (resp, s, w) ∧
    switch_region req region_name redirect_field_name st
    = (Ret resp,
       mkState s w
         (trace st ++ [Log DEBUG ("Switching to " +:+ region_name +:+ " at " +:+ auth_url)])
         (threads st)).
Proof.
  intros Hres Hmiss.
  destruct (django_logout (store st) (world st)) as [[resp s] w] eqn:Hout.
  exists resp, s, w. split; first done.
  unfold switch_region.
  destruct (region_urls region_name) as [|url urls]; simplify_eq/=.
  unfold_m. proj.
  destruct Hmiss as [Hnone | (l & d & Hsess & Hheap & Hd)].
  - rewrite Hnone. cbn. by rewrite Hout.
  - rewrite Hsess. unfold getitem_in. proj. rewrite Hheap, Hd. cbn. by rewrite Hout.
Qed.

(** C1.  The requested region resolves to [auth_url], the session's
    [region_tokens] names a mapping [rt] that holds an unscoped token for
    [auth_url], and re-authentication succeeds: after [django_auth] and
    [django_do_login] the request's user is authenticated (these
    collaborators and [set_session_from_user] may rewrite the session, and
    the login may empty it; they leave the mapping object itself as it is).
    Then [switch_region] answers with a redirect, and in the session it
    leaves
    - [region_endpoint] is the endpoint of the user now logged in, and
      [region_name] is the display name the region choices give for that
      endpoint (so the requested region's own auth_url and name, when the
      user's endpoint is [auth_url] and the choices list it under that name);
    - [region_tokens] is the very mapping it was before, with every key and
      value it had: [rt]. *)
Theorem switch_region_success_keeps_region_tokens
    (req : Request) (region_name redirect_field_name auth_url : string)
    (st : State W) (l : loc) (rt : gmap string val) (unscoped_token : val)
    (u1 : option User) (s1 s2 s3 : Store) (w1 w2 w3 : W) :
  head (region_urls region_name) = Some auth_url →
  session (store st) !! "region_tokens" = Some (VRef l) →
  heap (store st) !! l = Some (ODict rt) →
  rt !! auth_url = Some unscoped_token →
  django_auth (Some (username (user (store st)))) unscoped_token auth_url
    (store st) (world st) = (u1, s1, w1) →
  django_do_login u1 s1 w1 = (tt, s2, w2) →
  is_authenticated (user s2) = true →
  set_session_from_user (user s2) s2 w2 = (tt, s3, w3) →
  heap s3 !! l = Some (ODict rt) →
  ∃ target st',
    switch_region req region_name redirect_field_name st
    = (Ret (HttpResponseRedirect target), st') ∧
    session (store st') !! "region_endpoint" = Some (VStr (endpoint (user s3))) ∧
    session (store st') !! "region_name"
    = Some (from_option VStr VNone (py_dict get_region_choices !! endpoint (user s3))) ∧
    (endpoint (user s3) = auth_url →
     py_dict get_region_choices !! auth_url = Some region_name →
     session (store st') !! "region_endpoint" = Some (VStr auth_url) ∧
     session (store st') !! "region_name" = Some (VStr region_name)) ∧
    session (store st') !! "region_tokens" = Some (VRef l) ∧
    heap (store st') !! l = Some (ODict rt) ∧
    (∀ key v, rt !! key = Some v →
       getitem_in (heap (store st')) (VRef l) key = Ret v) ∧
    (∀ key, key ∉ ["region_endpoint"; "region_name"; "region_tokens"] →
       session (store st') !! key = session s3 !! key).
Proof.
  intros Hres Hsess Hheap Htok Hauth Hlogin Hok Hset Hframe.
  unfold switch_region.
  destruct (region_urls region_name) as [|url urls]; simplify_eq/=.
  unfold_m. proj. rewrite Hsess. unfold getitem_in at 1. proj.
  rewrite Hheap, Htok. proj. rewrite Hauth. proj. rewrite Hlogin. proj.
  rewrite Hok. cbn [negb]. proj. rewrite Hset. proj.
  eexists _, _. split; first reflexivity. proj.
  assert (Hne1 : "region_tokens" ≠ "region_name") by done.
  assert (Hne2 : "region_tokens" ≠ "region_endpoint") by done.
  assert (Hne3 : "region_name" ≠ "region_endpoint") by done.
  split_and!.
  - by rewrite 2!lookup_insert_ne, lookup_insert_eq.
  - by rewrite lookup_insert_ne, lookup_insert_eq.
  - intros Hep Hname. rewrite Hep, Hname.
    split; [by rewrite 2!lookup_insert_ne, lookup_insert_eq
           | by rewrite lookup_insert_ne, lookup_insert_eq].
  - by rewrite lookup_insert_eq.
  - done.
  - intros key v Hkey. unfold getitem_in. by rewrite Hframe, Hkey.
  - intros key Hkey. rewrite !lookup_insert_ne; [done | set_solver..].
Qed.

(** C4.  When [client.tokens.authenticate] raises a client error, [switch]
    catches it: the view still answers with a redirect, and the store is
    the one it started with, so the session (in particular
    [region_endpoint] and [region_name]) and the request's user are
    unchanged.  What the view did is in the trace: its debug record, the
    attempt, and the two records of the failure. *)
Theorem switch_client_error_is_noop
    (req : Request) (tenant_id redirect_field_name : string) (st : State W)
    (e : exn) (w' : W) :
  let u := user (store st) in
  let client := mkClient (VStr (endpoint u)) VNone
                  (default false (OPENSTACK_SSL_NO_VERIFY settings)) in
  tokens_authenticate client tenant_id (token_id u) (world st) = (Raise e, w') →
  is_ClientException e = true →
  ∃ target st',
    switch req tenant_id redirect_field_name st
    = (Ret (HttpResponseRedirect target), st') ∧
    store st' = store st ∧
    session (store st') !! "region_endpoint" = session (store st) !! "region_endpoint" ∧
    session (store st') !! "region_name" = session (store st) !! "region_name" ∧
    threads st' = threads st ∧
    trace st'
    = trace st ++
      [Log DEBUG ("Switching to tenant " +:+ tenant_id +:+ " for user "
                  +:+ dq +:+ username u +:+ dq +:+ ".");
       TokensAuthenticate client tenant_id (token_id u);
       Log WARNING ("Tenant switch failed for user " +:+ dq +:+ username u +:+ dq +:+ ".");
       Log ERROR "An error occurred while switching sessions."].
Proof.
  intros u client Hauth Hclient. subst u client.
  unfold switch, client_tokens_authenticate. unfold_m. proj.
  rewrite Hauth. proj. rewrite Hclient. proj.
  eexists _, _. split; first reflexivity. proj.
  split_and!; try done.
  by rewrite <- !(assoc_L (++)).
Qed.

(** C5.  The redirect of [switch] and of [switch_region] goes to the value
    of the request's redirect parameter (the empty string when it is
    absent) if [is_safe_url] accepts it for the request's host, and to
    [LOGIN_REDIRECT_URL] otherwise.  [switch] reaches its redirect whenever
    [client.tokens.authenticate] returns or raises a client error;
    [switch_region] reaches it when the region resolves, a token is cached
    for it and the user is authenticated after the login. *)
Theorem redirect_target_is_validated (req : Request) (redirect_field_name : string) :
  let redirect_to := default EmptyString (REQUEST req !! redirect_field_name) in
  let target :=
    if is_safe_url redirect_to (host req) then redirect_to
    else LOGIN_REDIRECT_URL settings in
  (∀ (tenant_id : string) (st : State W),
     (∀ e, (tokens_authenticate
              (mkClient (VStr (endpoint (user (store st)))) VNone
                        (default false (OPENSTACK_SSL_NO_VERIFY settings)))
              tenant_id (token_id (user (store st))) (world st)).1 = Raise e →
           is_ClientException e = true) →
     ∃ st', switch req tenant_id redirect_field_name st
            = (Ret (HttpResponseRedirect target), st'))
  ∧
  (∀ (region_name auth_url : string) (st : State W) (l : loc)
     (rt : gmap string val) (unscoped_token : val)
     (u1 : option User) (s1 s2 : Store) (w1 w2 : W),
     head (region_urls region_name) = Some auth_url →
     session (store st) !! "region_tokens" = Some (VRef l) →
     heap (store st) !! l = Some (ODict rt) →
     rt !! auth_url = Some unscoped_token →
     django_auth (Some (username (user (store st)))) unscoped_token auth_url
       (store st) (world st) = (u1, s1, w1) →
     django_do_login u1 s1 w1 = (tt, s2, w2) →
     is_authenticated (user s2) = true →
     ∃ st', switch_region req region_name redirect_field_name st
            = (Ret (HttpResponseRedirect target), st')).
Proof.
  intros redirect_to target. subst redirect_to target. split.
  - intros tenant_id st Hexn.
    unfold switch, client_tokens_authenticate. unfold_m. proj.
    destruct (tokens_authenticate _ _ _ _) as [[token|e] w'] eqn:Hauth; proj.
    + destruct (create_user_from_token _ _ _ _) as [[u' s'] w''] eqn:Hcreate. proj.
      destruct (set_session_from_user _ _ _) as [[[] s''] w'''] eqn:Hset. proj.
      destruct (is_safe_url _ _); eexists; reflexivity.
    + rewrite (Hexn e eq_refl). proj.
      destruct (is_safe_url _ _); eexists; reflexivity.
  - intros region_name auth_url st l rt tok u1 s1 s2 w1 w2
      Hres Hsess Hheap Htok Hauth Hlogin Hok.
    unfold switch_region.
    destruct (region_urls region_name) as [|url urls]; simplify_eq/=.
    unfold_m. proj. rewrite Hsess. unfold getitem_in at 1. proj.
    rewrite Hheap, Htok. proj. rewrite Hauth. proj. rewrite Hlogin. proj.
    rewrite Hok. cbn [negb]. proj.
    destruct (set_session_from_user _ _ _) as [[[] s3] w3] eqn:Hset. proj.
    destruct (is_safe_url _ _); eexists; reflexivity.
Qed.

(** ** The token reaper *)

Lemma delete_all_tokens_unfold (token_list : val) (st : State W) :
  delete_all_tokens token_list st
  = match iter_in (heap (store st)) token_list with
    | Ret items => reap (default false (OPENSTACK_SSL_NO_VERIFY settings)) items st
    | Raise e => (Raise e, st)
    end.
Proof.
  unfold delete_all_tokens, reap, reap_step. unfold_m.
  by destruct (iter_in _ _).
Qed.

Lemma reap_cons (insecure : bool) (x : val) (items : list val) (st : State W) :
  reap insecure (x :: items) st
  = match reap_step insecure x st with
    | (Ret _, st') => reap insecure items st'
    | (Raise e, st') => (Raise e, st')
    end.
Proof. reflexivity. Qed.

Lemma reap_app (insecure : bool) (pre post : list val) (st st1 : State W) :
  reap insecure pre st = (Ret tt, st1) →
  reap insecure (pre ++ post) st = reap insecure post st1.
Proof.
  revert st. induction pre as [|x pre IH]; intros st Hpre.
  - unfold reap in Hpre. simpl in Hpre. unfold_m. by simplify_eq.
  - simpl. rewrite reap_cons in *.
    destruct (reap_step insecure x st) as [[[]|e] st2]; last done.
    by apply IH.
Qed.

(** A turn of the loop touches neither the store nor the threads. *)
Lemma reap_step_store (insecure : bool) (x : val) (st st' : State W) (r : res unit) :
  reap_step insecure x st = (r, st') →
  store st' = store st ∧ threads st' = threads st.
Proof.
  unfold reap_step, delete_token, client_tokens_delete. unfold_m. proj.
  destruct (subscript_in _ x 0) as [ep|e0]; proj.
  - destruct (subscript_in _ x 1) as [tk|e1]; proj.
    + destruct (tokens_delete _ _ _) as [[[]|e] w']; proj.
      * intros; by simplify_eq.
      * destruct (is_ClientException e); proj; intros; by simplify_eq.
    + destruct (is_ClientException e1); proj; intros; by simplify_eq.
  - destruct (is_ClientException e0); proj; intros; by simplify_eq.
Qed.

Lemma reap_store (insecure : bool) (items : list val) (st st' : State W) (r : res unit) :
  reap insecure items st = (r, st') →
  store st' = store st ∧ threads st' = threads st.
Proof.
  revert st. induction items as [|x items IH]; intros st Hrun.
  - unfold reap in Hrun. simpl in Hrun. unfold_m. by simplify_eq.
  - rewrite reap_cons in Hrun.
    destruct (reap_step insecure x st) as [[[]|e] st2] eqn:Hstep.
    + destruct (reap_step_store _ _ _ _ _ Hstep) as [<- <-]. by apply IH.
    + simplify_eq. by eapply reap_step_store.
Qed.

Lemma reap_pairs (insecure : bool) (ps : list (val * val)) (st : State W) :
  (∀ c t w e, (tokens_delete c t w).1 = Raise e → is_ClientException e = true) →
  reap insecure (pair_item <$> ps) st
  = (Ret tt,
     mkState (store st) (reaper_events insecure ps (world st)).2
             (trace st ++ (reaper_events insecure ps (world st)).1) (threads st)).
Proof.
  intros Hclient. revert st. induction ps as [|[ep tk] ps IH]; intros st.
  - unfold reap. simpl. unfold_m. rewrite app_nil_r. by destruct st.
  - rewrite fmap_cons, reap_cons. cbn [reaper_events].
    unfold reap_step, delete_token, client_tokens_delete. unfold_m.
    change (pair_item (ep, tk)) with (VTuple [ep; tk]).
    change (subscript_in (heap (store st)) (VTuple [ep; tk]) 0) with (@Ret val ep).
    change (subscript_in (heap (store st)) (VTuple [ep; tk]) 1) with (@Ret val tk).
    proj.
    pose proof (Hclient (mkClient ep tk insecure) tk (world st)) as He.
    destruct (tokens_delete _ _ _) as [[[]|e] w'] eqn:Hdel; proj.
    + rewrite IH. proj.
      destruct (reaper_events insecure ps w') as [evs w'']. proj.
      by rewrite <- (assoc_L (++)).
    + rewrite (He e eq_refl). proj. rewrite IH. proj.
      destruct (reaper_events insecure ps w') as [evs w'']. proj.
      by rewrite <- !(assoc_L (++)).
Qed.

Lemma delete_attempts_app (tr1 tr2 : list Event) :
  delete_attempts (tr1 ++ tr2) = delete_attempts tr1 ++ delete_attempts tr2.
Proof. apply List.filter_app. Qed.

Lemma delete_attempts_reaper_events (insecure : bool) (ps : list (val * val)) (w : W) :
  delete_attempts (reaper_events insecure ps w).1 = attempt_of insecure <$> ps.
Proof.
  revert w. induction ps as [|p ps IH]; intros w; first done.
  simpl. destruct (tokens_delete _ _ _) as [r w'].
  specialize (IH w'). destruct (reaper_events insecure ps w') as [evs w''].
  proj. unfold delete_attempts in *. simpl. f_equal.
  destruct r; simpl; by rewrite IH.
Qed.

(** C6.  On a token list of N (endpoint, token) pairs, with an identity
    service whose deletions fail, when they fail, with a client error, the
    reaper returns normally after attempting the deletion of every pair, in
    order: the attempts it adds to the trace are those of the N pairs.  The
    whole trace is [reaper_events]: every attempt that raised is followed
    by the record [Could not delete token] and then by the attempts for the
    remaining pairs. *)
Theorem delete_all_tokens_attempts_every_pair
    (token_list : val) (ps : list (val * val)) (st : State W) :
  let insecure := default false (OPENSTACK_SSL_NO_VERIFY settings) in
  iter_in (heap (store st)) token_list = Ret (pair_item <$> ps) →
  (∀ c t w e, (tokens_delete c t w).1 = Raise e → is_ClientException e = true) →
  ∃ st',
    delete_all_tokens token_list st = (Ret tt, st') ∧
    trace st' = trace st ++ (reaper_events insecure ps (world st)).1 ∧
    world st' = (reaper_events insecure ps (world st)).2 ∧
    delete_attempts (trace st')
    = delete_attempts (trace st) ++ (attempt_of insecure <$> ps) ∧
    length (delete_attempts (trace st'))
    = length (delete_attempts (trace st)) + length ps.
Proof.
  intros insecure Hiter Hclient.
  rewrite delete_all_tokens_unfold, Hiter. fold insecure.
  rewrite (reap_pairs _ _ _ Hclient).
  eexists. split; first reflexivity. proj.
  assert (Hatt : delete_attempts (trace st ++ (reaper_events insecure ps (world st)).1)
                 = delete_attempts (trace st) ++ (attempt_of insecure <$> ps)).
  { by rewrite delete_attempts_app, delete_attempts_reaper_events. }
  split_and!; try done.
  by rewrite Hatt, length_app, length_fmap.
Qed.

Lemma subscript_in_not_client (h : gmap loc obj) (v : val) (i : nat) (e : exn) :
  subscript_in h v i = Raise e → is_ClientException e = false.
Proof.
  unfold subscript_in. intros H.
  repeat case_match; by simplify_eq.
Qed.

Lemma endpoint_and_token_not_client (h : gmap loc obj) (v : val) (e : exn) :
  endpoint_and_token h v = Raise e → is_ClientException e = false.
Proof.
  unfold endpoint_and_token. intros H.
  destruct (subscript_in h v 0) eqn:H0.
  - destruct (subscript_in h v 1) eqn:H1; simplify_eq.
    by eapply subscript_in_not_client.
  - simplify_eq. by eapply subscript_in_not_client.
Qed.

(** C10.  The [except] clause of the reaper catches client errors only.  If
    the token list holds an item [bad] from which the endpoint and the
    token cannot be extracted (it is not a sequence of at least two
    elements), and the items before it have been processed, then the error
    of the extraction is not a client error, it leaves
    [delete_all_tokens] uncaught, and the run stops there: the final state
    is the state reached after the items before [bad], so nothing is
    attempted for [bad] or for any item after it. *)
Theorem delete_all_tokens_malformed_item_aborts
    (token_list : val) (pre post : list val) (bad : val)
    (st st1 : State W) (e : exn) :
  iter_in (heap (store st)) token_list = Ret (pre ++ bad :: post) →
  delete_all_tokens (VTuple pre) st = (Ret tt, st1) →
  endpoint_and_token (heap (store st)) bad = Raise e →
  is_ClientException e = false ∧
  delete_all_tokens token_list st = (Raise e, st1).
Proof.
  intros Hiter Hpre Hbad.
  pose proof (endpoint_and_token_not_client _ _ _ Hbad) as Hnc.
  rewrite delete_all_tokens_unfold in Hpre. simpl in Hpre.
  assert (Hrun : delete_all_tokens token_list st = (Raise e, st1)).
  { rewrite delete_all_tokens_unfold, Hiter.
    rewrite (reap_app _ _ _ _ _ Hpre).
    destruct (reap_store _ _ _ _ _ Hpre) as [Hstore _].
    rewrite reap_cons. unfold reap_step, delete_token. unfold_m. proj.
    rewrite Hstore. unfold endpoint_and_token in Hbad.
    destruct (subscript_in _ bad 0) as [ep|e0]; proj.
    - destruct (subscript_in _ bad 1) as [tk|e1]; proj; simplify_eq.
      by rewrite Hnc.
    - simplify_eq. by rewrite Hnc. }
  done.
Qed.

(** ** Logout *)

Lemma fresh_loc_unused (h : gmap loc obj) : h !! fresh (dom h) = None.
Proof. apply not_elem_of_dom, is_fresh. Qed.

(** C7.  With a list [xs] as the session's [token_list], [logout] starts the
    reaper on a new list object [c]: [c] did not exist before, so it is not
    the session's list [l] and nothing but the thread names it, and it holds
    [xs], the items of the session's list at that moment.  ([django_logout],
    which runs next and ends the session, is taken not to alter the objects
    of the heap.)  Whatever the session's list holds later, [c] still holds
    [xs]: in every state in which [l] has been given other contents [ys], an
    iteration over [c] yields [xs], and the reaper run on [c] is the reaper
    run on [xs], while the session's own list does yield [ys]. *)
Theorem logout_hands_reaper_a_copy
    (req : Request) (st : State W) (l : loc) (xs : list val) :
  session (store st) !! "token_list" = Some (VRef l) →
  heap (store st) !! l = Some (OList xs) →
  (∀ s w c o, heap s !! c = Some o → heap (django_logout s w).1.2 !! c = Some o) →
  ∃ resp st' c,
    logout req st = (Ret resp, st') ∧
    threads st' = threads st ++ [VRef c] ∧
    heap (store st) !! c = None ∧
    c ≠ l ∧
    heap (store st') !! c = Some (OList xs) ∧
    ∀ (ys : list val) (st'' : State W),
      heap (store st'') = <[l := OList ys]> (heap (store st')) →
      iter_in (heap (store st'')) (VRef c) = Ret xs ∧
      iter_in (heap (store st'')) (VRef l) = Ret ys ∧
      delete_all_tokens (VRef c) st'' = delete_all_tokens (VTuple xs) st''.
Proof.
  intros Hsess Hheap Hlocal.
  set (c := fresh (dom (heap (store st)))).
  assert (Hfresh : heap (store st) !! c = None) by apply fresh_loc_unused.
  assert (Hne : c ≠ l) by (intros ->; congruence).
  unfold logout. unfold_m. proj. rewrite Hsess. proj.
  rewrite bool_decide_true by eauto. proj. rewrite ?Hsess. proj.
  unfold iter_in at 1. proj. rewrite Hheap. proj. fold c.
  pose proof (Hlocal (mkStore (<[c := OList xs]> (heap (store st)))
                              (session (store st)) (user (store st)))
                     (world st) c (OList xs)) as Hkeep.
  destruct (django_logout _ _) as [[resp s] w] eqn:Hout. proj.
  specialize (Hkeep (lookup_insert_eq _ _ _)).
  eexists resp, _, c. split; first reflexivity. proj.
  split_and!; try done.
  intros ys st'' Hst''.
  assert (Hc : iter_in (heap (store st'')) (VRef c) = Ret xs).
  { unfold iter_in. by rewrite Hst'', lookup_insert_ne, Hkeep. }
  split_and!; [done | |].
  - unfold iter_in. by rewrite Hst'', lookup_insert_eq.
  - by rewrite !delete_all_tokens_unfold, Hc.
Qed.

(** ** The CAS helpers *)

(** C8.  [_retrieve_cas_token] (and [_retrieve_cas_url], which is written
    the same way) calls [urljoin] on [auth_url] and [tokens], and then
    issues its one request, a POST, to [auth_url] followed by [/tokens]:
    the joined value is computed and not used.  The run is determined in
    full: the trace gets the call of [urljoin] and the request, the result
    is read off the answer to that request, the identity service is left
    as that request leaves it, and the store and the threads are
    untouched.  With any other [urljoin] the result, the identity service
    and the request are the same; only the value recorded for the call
    differs. *)
Theorem cas_request_ignores_urljoin
    (auth_url : string) (insecure : bool) (ticket service : string) (st : State W) :
  let client := mkHTTPClient auth_url insecure in
  let token_params :=
    JObj {[ "auth" := JObj {[ "casCredentials" :=
      JObj (<["ticket" := JStr ticket]> {[ "service" := JStr service ]}) ]} ]} in
  let url_params :=
    JObj {[ "auth" := JObj {[ "casCredentials" :=
      JObj {[ "service" := JStr service ]} ]} ]} in
  let answer params :=
    http_request client (auth_url +:+ "/tokens") "POST" params (world st) in
  let token_result :=
    match (answer token_params).1 with
    | Ret (_, body) => json_path body ["access"; "token"; "id"]
    | Raise e => Raise e
    end in
  let url_result :=
    match (answer url_params).1 with
    | Ret (_, body) => json_path body ["cas_login_url"]
    | Raise e => Raise e
    end in
  (∀ uj : string → string → string,
     @_retrieve_cas_token (with_urljoin uj E) auth_url insecure ticket service st
     = (token_result,
        mkState (store st) (answer token_params).2
          (trace st ++
           [UrlJoin auth_url "tokens" (uj auth_url "tokens");
            HttpRequest client (auth_url +:+ "/tokens") "POST" token_params])
          (threads st))) ∧
  @_retrieve_cas_token E auth_url insecure ticket service st
  = (token_result,
     mkState (store st) (answer token_params).2
       (trace st ++
        [UrlJoin auth_url "tokens" (urljoin auth_url "tokens");
         HttpRequest client (auth_url +:+ "/tokens") "POST" token_params])
       (threads st)) ∧
  (∀ uj : string → string → string,
     @_retrieve_cas_url (with_urljoin uj E) auth_url insecure service st
     = (url_result,
        mkState (store st) (answer url_params).2
          (trace st ++
           [UrlJoin auth_url "tokens" (uj auth_url "tokens");
            HttpRequest client (auth_url +:+ "/tokens") "POST" url_params])
          (threads st))) ∧
  @_retrieve_cas_url E auth_url insecure service st
  = (url_result,
     mkState (store st) (answer url_params).2
       (trace st ++
        [UrlJoin auth_url "tokens" (urljoin auth_url "tokens");
         HttpRequest client (auth_url +:+ "/tokens") "POST" url_params])
       (threads st)).
Proof.
  intros client token_params url_params answer token_result url_result.
  subst client token_params url_params answer token_result url_result.
  split_and!.
  - intros uj. exact (@cas_token_full (with_urljoin uj E) auth_url insecure ticket service st).
  - exact (cas_token_full auth_url insecure ticket service st).
  - intros uj. exact (@cas_url_full (with_urljoin uj E) auth_url insecure service st).
  - exact (cas_url_full auth_url insecure service st).
Qed.

End Properties.

(** * The theorems on the sample deployment *)

Lemma switch_region_unknown_region_logs_out_witness :
  ("RegionNine" ∉ sample_regions.*2) ∧
  ∃ resp s w,
    sample_logout (store sample_state) (world sample_state) = (resp, s, w) ∧
    @switch_region sample_env (sample_request "/dashboard") "RegionNine"
      REDIRECT_FIELD_NAME sample_state
    = (Ret resp, mkState s w [] []).
Proof.
  assert (H : "RegionNine" ∉ sample_regions.*2).
  { vm_compute. intros H.
    repeat (apply elem_of_cons in H as [H|H]; [discriminate H|]).
    by apply elem_of_nil in H. }
  split; first exact H.
  exact (@switch_region_unknown_region_logs_out sample_env
           (sample_request "/dashboard") "RegionNine" REDIRECT_FIELD_NAME sample_state H).
Defined.

(** [East] names the first and the third entry, and a token is cached for
    each: the switch goes to the first. *)
Lemma switch_region_resolves_first_match_witness :
  ∃ st',
    @switch_region east_env (sample_request "/dashboard") "East"
      REDIRECT_FIELD_NAME east_state
    = (Ret (HttpResponseRedirect "/dashboard"), st') ∧
    session (store st') !! "region_endpoint" = Some (VStr "http://a.example/v2.0") ∧
    session (store st') !! "region_name" = Some (VStr "East") ∧
    token_id (user (store st')) = "scoped:ta".
Proof.
  pose (u := mkUser "alice" "scoped:ta" "http://a.example/v2.0" true).
  pose (rt := (<["http://a.example/v2.0" := VStr "ta"]>
                 {[ "http://c.example/v2.0" := VStr "tc" ]} : gmap string val)).
  pose (s2 := mkStore (heap (store east_state)) ∅ u).
  pose (s3 := mkStore (heap (store east_state))
                ({[ "token" := VStr "scoped:ta" ]} : gmap string val) u).
  pose proof (proj2 (@switch_region_resolves_first_match east_env []
                       [("http://b.example/v2.0", "West");
                        ("http://c.example/v2.0", "East")]
                       "http://a.example/v2.0" "East"
                       ltac:(reflexivity)
                       ltac:(vm_compute; intros H; by apply elem_of_nil in H)))
    as Hview.
  pose proof (proj2 (Hview (sample_request "/dashboard") REDIRECT_FIELD_NAME east_state))
    as Hcached.
  pose proof (proj2 (Hcached 1%positive rt (VStr "ta") (Some u)
                       (store east_state) s2 [] []
                       ltac:(vm_compute; reflexivity) ltac:(vm_compute; reflexivity)
                       ltac:(vm_compute; reflexivity) ltac:(vm_compute; reflexivity)
                       ltac:(vm_compute; reflexivity))
                    eq_refl s3 [] ltac:(vm_compute; reflexivity))
    as Hrun.
  eexists. split.
  - exact Hrun.
  - vm_compute. split_and!; reflexivity.
Defined.

Lemma switch_region_missing_token_logs_out_witness :
  ∃ resp s w,
    sample_logout (store stale_state) (world stale_state) = (resp, s, w) ∧
    @switch_region sample_env (sample_request "/dashboard") "RegionTwo"
      REDIRECT_FIELD_NAME stale_state
    = (Ret resp,
       mkState s w
         [Log DEBUG "Switching to RegionTwo at http://r2.example:5000/v2.0"] []).
Proof.
  apply (@switch_region_missing_token_logs_out sample_env
           (sample_request "/dashboard") "RegionTwo" REDIRECT_FIELD_NAME
           "http://r2.example:5000/v2.0" stale_state).
  - vm_compute. reflexivity.
  - right. exists 1%positive, {[ "http://r1.example:5000/v2.0" := VStr "u1" ]}.
    split_and!; vm_compute; reflexivity.
Defined.

Lemma switch_region_success_keeps_region_tokens_witness :
  ∃ st',
    @switch_region sample_env (sample_request "/dashboard") "RegionTwo"
      REDIRECT_FIELD_NAME sample_state
    = (Ret (HttpResponseRedirect "/dashboard"), st') ∧
    session (store st') !! "region_endpoint" = Some (VStr "http://r2.example:5000/v2.0") ∧
    session (store st') !! "region_name" = Some (VStr "RegionTwo") ∧
    session (store st') !! "region_tokens" = Some (VRef 1%positive) ∧
    heap (store st') !! 1%positive = sample_heap !! 1%positive.
Proof.
  destruct (@switch_region_success_keeps_region_tokens sample_env
              (sample_request "/dashboard") "RegionTwo" REDIRECT_FIELD_NAME
              "http://r2.example:5000/v2.0" sample_state 1%positive
              (<["http://r1.example:5000/v2.0" := VStr "u1"]>
                 {["http://r2.example:5000/v2.0" := VStr "u2"]})
              (VStr "u2")
              (Some (mkUser "alice" "scoped:u2" "http://r2.example:5000/v2.0" true))
              (store sample_state)
              (mkStore sample_heap ∅
                 (mkUser "alice" "scoped:u2" "http://r2.example:5000/v2.0" true))
              (mkStore sample_heap {[ "token" := VStr "scoped:u2" ]}
                 (mkUser "alice" "scoped:u2" "http://r2.example:5000/v2.0" true))
              [] [] []
              ltac:(vm_compute; reflexivity) ltac:(vm_compute; reflexivity)
              ltac:(vm_compute; reflexivity) ltac:(vm_compute; reflexivity)
              ltac:(vm_compute; reflexivity) ltac:(vm_compute; reflexivity)
              ltac:(vm_compute; reflexivity) ltac:(vm_compute; reflexivity)
              ltac:(vm_compute; reflexivity))
    as (target & st' & Hrun & Hep & Hname & HR & Htokens & Hheap & _ & _).
  exists st'.
  destruct (HR eq_refl ltac:(vm_compute; reflexivity)) as [HRep HRname].
  assert (Htarget : target = "/dashboard").
  { assert (Hc : @switch_region sample_env (sample_request "/dashboard") "RegionTwo"
                   REDIRECT_FIELD_NAME sample_state
                 = (Ret (HttpResponseRedirect "/dashboard"),
                    (@switch_region sample_env (sample_request "/dashboard") "RegionTwo"
                       REDIRECT_FIELD_NAME sample_state).2))
      by (vm_compute; reflexivity).
    rewrite Hrun in Hc. by injection Hc. }
  rewrite Htarget in Hrun.
  split_and!; [exact Hrun | exact HRep | exact HRname | exact Htokens | exact Hheap].
Defined.

(** C1, as first stated, asked for the requested region's own name.  With
    the second auth_url listed as [RegionTwo] and then as [Backup], a token
    cached for it and a re-authentication that succeeds, the switch to
    [RegionTwo] records that auth_url and the name [Backup]: the name is
    looked up by endpoint, and the later entry wins. *)
Lemma switch_region_requested_name_counterexample :
  head (@region_urls alias_config_env "RegionTwo") = Some r2_url ∧
  session (store sample_state) !! "region_tokens" = Some (VRef 1%positive) ∧
  getitem_in (heap (store sample_state)) (VRef 1%positive) r2_url = Ret (VStr "u2") ∧
  (@switch_region alias_config_env (sample_request "/dashboard") "RegionTwo"
     REDIRECT_FIELD_NAME sample_state).1
  = Ret (HttpResponseRedirect "/dashboard") ∧
  session (store (@switch_region alias_config_env (sample_request "/dashboard")
                    "RegionTwo" REDIRECT_FIELD_NAME sample_state).2)
    !! "region_endpoint" = Some (VStr r2_url) ∧
  session (store (@switch_region alias_config_env (sample_request "/dashboard")
                    "RegionTwo" REDIRECT_FIELD_NAME sample_state).2)
    !! "region_name" = Some (VStr "Backup") ∧
  session (store (@switch_region alias_config_env (sample_request "/dashboard")
                    "RegionTwo" REDIRECT_FIELD_NAME sample_state).2)
    !! "region_name" ≠ Some (VStr "RegionTwo").
Proof.
  vm_compute. split_and!; try reflexivity. intros H. discriminate H.
Qed.

Lemma switch_client_error_is_noop_witness :
  ∃ target st',
    @switch sample_env (sample_request "/dashboard") "forbidden"
      REDIRECT_FIELD_NAME sample_state
    = (Ret (HttpResponseRedirect target), st') ∧
    store st' = store sample_state ∧
    session (store st') !! "region_endpoint" = Some (VStr "http://r1.example:5000/v2.0") ∧
    session (store st') !! "region_name" = Some (VStr "RegionOne").
Proof.
  destruct (@switch_client_error_is_noop sample_env
              (sample_request "/dashboard") "forbidden" REDIRECT_FIELD_NAME
              sample_state (ClientException "Unauthorized") []
              ltac:(vm_compute; reflexivity) ltac:(reflexivity))
    as (target & st' & Hrun & Hstore & Hep & Hname & _).
  exists target, st'. split_and!; [exact Hrun | exact Hstore | exact Hep | exact Hname].
Defined.

Lemma sample_delete_client_errors (c : Client) (t : val) (w : list val) (e : exn) :
  (sample_delete c t w).1 = Raise e → is_ClientException e = true.
Proof.
  unfold sample_delete. intros H.
  repeat case_match; simpl in H; by simplify_eq.
Defined.

Lemma sample_authenticate_client_errors (c : Client) (tenant_id token : string)
    (w : list val) (e : exn) :
  (sample_authenticate c tenant_id token w).1 = Raise e → is_ClientException e = true.
Proof.
  unfold sample_authenticate. intros H.
  destruct (String.eqb tenant_id "forbidden"); simpl in H; by simplify_eq.
Defined.

(** The two requests of the spec's example, on the host [myapp.example]:
    the foreign URL is replaced by [LOGIN_REDIRECT_URL], here [/home/], and
    [/dashboard] is kept, by [switch] and by [switch_region] alike. *)
Lemma redirect_target_is_validated_witness :
  (∃ st', @switch sample_env (sample_request "http://evil.example/x") "demo"
            REDIRECT_FIELD_NAME sample_state
          = (Ret (HttpResponseRedirect "/home/"), st')) ∧
  (∃ st', @switch_region sample_env (sample_request "http://evil.example/x") "RegionTwo"
            REDIRECT_FIELD_NAME sample_state
          = (Ret (HttpResponseRedirect "/home/"), st')) ∧
  (∃ st', @switch sample_env (sample_request "/dashboard") "forbidden"
            REDIRECT_FIELD_NAME sample_state
          = (Ret (HttpResponseRedirect "/dashboard"), st')) ∧
  (∃ st', @switch_region sample_env (sample_request "/dashboard") "RegionTwo"
            REDIRECT_FIELD_NAME sample_state
          = (Ret (HttpResponseRedirect "/dashboard"), st')).
Proof.
  pose proof (@redirect_target_is_validated sample_env
                (sample_request "http://evil.example/x") REDIRECT_FIELD_NAME)
    as [Hswitch_evil Hregion_evil].
  pose proof (@redirect_target_is_validated sample_env
                (sample_request "/dashboard") REDIRECT_FIELD_NAME)
    as [Hswitch_ok Hregion_ok].
  split_and!.
  - apply (Hswitch_evil "demo" sample_state).
    intros e. apply sample_authenticate_client_errors.
  - apply (Hregion_evil "RegionTwo" "http://r2.example:5000/v2.0" sample_state
             1%positive
             (<["http://r1.example:5000/v2.0" := VStr "u1"]>
                {["http://r2.example:5000/v2.0" := VStr "u2"]})
             (VStr "u2")
             (Some (mkUser "alice" "scoped:u2" "http://r2.example:5000/v2.0" true))
             (store sample_state)
             (mkStore sample_heap ∅
                (mkUser "alice" "scoped:u2" "http://r2.example:5000/v2.0" true))
             [] []); vm_compute; reflexivity.
  - apply (Hswitch_ok "forbidden" sample_state).
    intros e. apply sample_authenticate_client_errors.
  - apply (Hregion_ok "RegionTwo" "http://r2.example:5000/v2.0" sample_state
             1%positive
             (<["http://r1.example:5000/v2.0" := VStr "u1"]>
                {["http://r2.example:5000/v2.0" := VStr "u2"]})
             (VStr "u2")
             (Some (mkUser "alice" "scoped:u2" "http://r2.example:5000/v2.0" true))
             (store sample_state)
             (mkStore sample_heap ∅
                (mkUser "alice" "scoped:u2" "http://r2.example:5000/v2.0" true))
             [] []); vm_compute; reflexivity.
Defined.

(** The sample token list: the first deletion is refused, the second is
    still attempted. *)
Lemma delete_all_tokens_attempts_every_pair_witness :
  ∃ st',
    @delete_all_tokens sample_env (VRef 2%positive) sample_state = (Ret tt, st') ∧
    delete_attempts (trace st')
    = [TokensDelete (mkClient (VStr "http://r1.example:5000/v2.0") (VStr "expired") false)
         (VStr "expired");
       TokensDelete (mkClient (VStr "http://r1.example:5000/v2.0") (VStr "scoped:t1") false)
         (VStr "scoped:t1")] ∧
    trace st'
    = [TokensDelete (mkClient (VStr "http://r1.example:5000/v2.0") (VStr "expired") false)
         (VStr "expired");
       Log INFO "Could not delete token";
       TokensDelete (mkClient (VStr "http://r1.example:5000/v2.0") (VStr "scoped:t1") false)
         (VStr "scoped:t1")].
Proof.
  destruct (@delete_all_tokens_attempts_every_pair sample_env (VRef 2%positive)
              [(VStr "http://r1.example:5000/v2.0", VStr "expired");
               (VStr "http://r1.example:5000/v2.0", VStr "scoped:t1")]
              sample_state
              ltac:(vm_compute; reflexivity)
              sample_delete_client_errors)
    as (st' & Hrun & Htrace & _ & Hattempts & _).
  exists st'. split_and!; [exact Hrun | exact Hattempts | exact Htrace].
Defined.

Lemma delete_all_tokens_malformed_item_aborts_witness :
  ∃ st1,
    @delete_all_tokens sample_env broken_token_list sample_state
    = (Raise IndexError, st1) ∧
    trace st1
    = [TokensDelete (mkClient (VStr "http://r1.example:5000/v2.0") (VStr "t1") false)
         (VStr "t1")].
Proof.
  eexists. split.
  - eapply (@delete_all_tokens_malformed_item_aborts sample_env broken_token_list
              [VTuple [VStr "http://r1.example:5000/v2.0"; VStr "t1"]]
              [VTuple [VStr "http://r1.example:5000/v2.0"; VStr "t3"]]
              (VTuple [VStr "http://r1.example:5000/v2.0"])
              sample_state); vm_compute; reflexivity.
  - vm_compute. reflexivity.
Defined.

Lemma sample_logout_keeps_objects (s : Store) (w : list val) (c : loc) (o : obj) :
  heap s !! c = Some o → heap (sample_logout s w).1.2 !! c = Some o.
Proof. intros H. exact H. Defined.

(** Alice logs out: the reaper gets the new object 3, not the session's
    list 2. *)
Lemma logout_hands_reaper_a_copy_witness :
  ∃ resp st' c,
    @logout sample_env (sample_request "/dashboard") sample_state = (Ret resp, st') ∧
    threads st' = [VRef c] ∧
    c ≠ 2%positive ∧
    ∀ (ys : list val) (st'' : State (list val)),
      heap (store st'') = <[2%positive := OList ys]> (heap (store st')) →
      iter_in (heap (store st'')) (VRef c)
      = Ret [VTuple [VStr "http://r1.example:5000/v2.0"; VStr "expired"];
             VTuple [VStr "http://r1.example:5000/v2.0"; VStr "scoped:t1"]] ∧
      iter_in (heap (store st'')) (VRef 2%positive) = Ret ys.
Proof.
  destruct (@logout_hands_reaper_a_copy sample_env (sample_request "/dashboard")
              sample_state 2%positive
              [VTuple [VStr "http://r1.example:5000/v2.0"; VStr "expired"];
               VTuple [VStr "http://r1.example:5000/v2.0"; VStr "scoped:t1"]]
              ltac:(vm_compute; reflexivity) ltac:(vm_compute; reflexivity)
              sample_logout_keeps_objects)
    as (resp & st' & c & Hrun & Hthreads & _ & Hne & _ & Hlater).
  exists resp, st', c. split_and!; [exact Hrun | exact Hthreads | exact Hne |].
  intros ys st'' Hst''. destruct (Hlater ys st'' Hst'') as (Hc & Hl & _).
  split; [exact Hc | exact Hl].
Defined.

(** * Further properties *)

Section MoreProperties.
Context `{E : Env}.

(** ** The reaper, whatever it is given *)

Lemma reap_step_events (insecure : bool) (x : val) (st : State W) :
  ∃ evs, trace (reap_step insecure x st).2 = trace st ++ evs
         ∧ forallb is_reaper_event evs = true.
Proof.
  unfold reap_step, delete_token, client_tokens_delete. unfold_m. proj.
  destruct (subscript_in _ x 0) as [ep|e0]; proj.
  - destruct (subscript_in _ x 1) as [tk|e1]; proj.
    + destruct (tokens_delete _ _ _) as [[[]|e] w']; proj.
      * by exists [TokensDelete (mkClient ep tk insecure) tk].
      * destruct (is_ClientException e); proj.
        -- exists [TokensDelete (mkClient ep tk insecure) tk;
                   Log INFO "Could not delete token"].
           by rewrite <- (assoc_L (++)).
        -- by exists [TokensDelete (mkClient ep tk insecure) tk].
    + destruct (is_ClientException e1); proj.
      * by exists [Log INFO "Could not delete token"].
      * exists []. by rewrite app_nil_r.
  - destruct (is_ClientException e0); proj.
    + by exists [Log INFO "Could not delete token"].
    + exists []. by rewrite app_nil_r.
Qed.

Lemma reap_events (insecure : bool) (items : list val) (st : State W) :
  ∃ evs, trace (reap insecure items st).2 = trace st ++ evs
         ∧ forallb is_reaper_event evs = true.
Proof.
  revert st. induction items as [|x items IH]; intros st.
  - exists []. unfold reap. simpl. unfold_m. by rewrite app_nil_r.
  - rewrite reap_cons.
    destruct (reap_step_events insecure x st) as (evs1 & Htr1 & Hall1).
    destruct (reap_step insecure x st) as [[[]|e] st1]; proj.
    + destruct (IH st1) as (evs2 & Htr2 & Hall2).
      exists (evs1 ++ evs2). rewrite Htr2, Htr1, (assoc_L (++)).
      split; first done. by rewrite forallb_app, Hall1, Hall2.
    + by exists evs1.
Qed.

(** X1.  Whatever [delete_all_tokens] is given and however it ends (it may
    raise), it leaves the request alone: the store and the threads are
    unchanged.  All it adds to the trace are deletion attempts and records
    [Could not delete token]: it authenticates nothing and issues no other
    request. *)
Theorem delete_all_tokens_only_deletes (token_list : val) (st : State W) :
  store (delete_all_tokens token_list st).2 = store st ∧
  threads (delete_all_tokens token_list st).2 = threads st ∧
  ∃ evs, trace (delete_all_tokens token_list st).2 = trace st ++ evs
         ∧ forallb is_reaper_event evs = true.
Proof.
  rewrite delete_all_tokens_unfold.
  destruct (iter_in _ _) as [items|e].
  - destruct (reap _ items st) as [r st'] eqn:Hrun.
    destruct (reap_store _ _ _ _ _ Hrun) as [Hstore Hthreads].
    pose proof (reap_events (default false (OPENSTACK_SSL_NO_VERIFY settings)) items st)
      as Hev.
    rewrite Hrun in Hev. by proj.
  - proj. split_and!; try done. exists []. by rewrite app_nil_r.
Qed.

(** X2.  A deletion that raises anything but a client error ends the run:
    after the items before it have been processed, the attempt for the pair
    [p] is made, its error leaves [delete_all_tokens] uncaught and
    unlogged, and nothing is attempted for the items after it. *)
Theorem delete_all_tokens_other_error_aborts
    (token_list : val) (pre post : list val) (p : val * val)
    (st st1 : State W) (e : exn) (w' : W) :
  let insecure := default false (OPENSTACK_SSL_NO_VERIFY settings) in
  iter_in (heap (store st)) token_list = Ret (pre ++ pair_item p :: post) →
  delete_all_tokens (VTuple pre) st = (Ret tt, st1) →
  tokens_delete (mkClient p.1 p.2 insecure) p.2 (world st1) = (Raise e, w') →
  is_ClientException e = false →
  delete_all_tokens token_list st
  = (Raise e,
     mkState (store st1) w' (trace st1 ++ [attempt_of insecure p]) (threads st1)).
Proof.
  intros insecure Hiter Hpre Hdel Hnc.
  rewrite delete_all_tokens_unfold in Hpre. simpl in Hpre. fold insecure in Hpre.
  rewrite delete_all_tokens_unfold, Hiter. fold insecure.
  rewrite (reap_app _ _ _ _ _ Hpre), reap_cons.
  unfold reap_step, delete_token, client_tokens_delete. unfold_m.
  destruct p as [ep tk].
  change (pair_item (ep, tk)) with (VTuple [ep; tk]).
  change (subscript_in (heap (store st1)) (VTuple [ep; tk]) 0) with (@Ret val ep).
  change (subscript_in (heap (store st1)) (VTuple [ep; tk]) 1) with (@Ret val tk).
  proj. rewrite Hdel. proj. by rewrite Hnc.
Qed.

(** ** Logout *)

(** X3.  Without a [token_list] in the session, [logout] starts no thread
    and creates no object: it logs and returns what [django_logout(request)]
    returns, run on the store as it was. *)
Theorem logout_without_token_list (req : Request) (st : State W) :
  session (store st) !! "token_list" = None →
  ∃ resp s w,
    django_logout (store st) (world st) = (resp, s, w) ∧
    logout req st
    = (Ret resp,
       mkState s w
         (trace st ++ [Log INFO ("Logging out user " +:+ dq
                                 +:+ username (user (store st)) +:+ dq +:+ ".")])
         (threads st)).
Proof.
  intros Hnone.
  destruct (django_logout (store st) (world st)) as [[resp s] w] eqn:Hout.
  exists resp, s, w. split; first done.
  unfold logout. unfold_m. proj. rewrite Hnone.
  rewrite bool_decide_false by (intros [? ?]; done). proj. by rewrite Hout.
Qed.

(** X4.  Logout and the reaper together: with the pairs [ps] as the
    session's [token_list], a [django_logout] that does not alter the
    objects of the heap, and deletions that fail with client errors only,
    [logout] returns a response and starts one thread; run after the logout, that thread returns normally and has
    attempted the deletion of every pair of [ps], in order. *)
Theorem logout_then_reaper_deletes_session_tokens
    (req : Request) (st : State W) (l : loc) (ps : list (val * val)) :
  let insecure := default false (OPENSTACK_SSL_NO_VERIFY settings) in
  session (store st) !! "token_list" = Some (VRef l) →
  heap (store st) !! l = Some (OList (pair_item <$> ps)) →
  (∀ s w c o, heap s !! c = Some o → heap (django_logout s w).1.2 !! c = Some o) →
  (∀ c t w e, (tokens_delete c t w).1 = Raise e → is_ClientException e = true) →
  ∃ resp st' arg st'',
    logout req st = (Ret resp, st') ∧
    threads st' = threads st ++ [arg] ∧
    delete_all_tokens arg st' = (Ret tt, st'') ∧
    delete_attempts (trace st'')
    = delete_attempts (trace st) ++ (attempt_of insecure <$> ps).
Proof.
  intros insecure Hsess Hheap Hlocal Hclient.
  set (c := fresh (dom (heap (store st)))).
  unfold logout. unfold_m. proj. rewrite Hsess. proj.
  rewrite bool_decide_true by eauto. proj. rewrite ?Hsess. proj.
  unfold iter_in at 1. proj. rewrite Hheap. proj. fold c.
  pose proof (Hlocal (mkStore (<[c := OList (pair_item <$> ps)]> (heap (store st)))
                              (session (store st)) (user (store st)))
                     (world st) c (OList (pair_item <$> ps))
                     (lookup_insert_eq _ _ _)) as Hkeep.
  destruct (django_logout _ _) as [[resp s] w] eqn:Hout. proj.
  eexists resp, _, (VRef c), _.
  split; first reflexivity. split; first reflexivity.
  rewrite delete_all_tokens_unfold. unfold iter_in. proj. rewrite Hkeep.
  fold insecure. rewrite (reap_pairs _ _ _ Hclient). proj.
  split; first reflexivity. proj.
  rewrite !delete_attempts_app, delete_attempts_reaper_events.
  by rewrite app_nil_r.
Qed.

(** ** Tenant switch *)

(** X5.  When [client.tokens.authenticate] returns a token, [switch] has a
    user made from that token and the endpoint of the CURRENT user, hands
    it to [set_session_from_user], and answers with the validated
    redirect.  The store it leaves is the one [set_session_from_user]
    left: the view itself writes no session key and does not replace
    [request.user]. *)
Theorem switch_success_projects_new_user
    (req : Request) (tenant_id redirect_field_name : string) (st : State W)
    (token : Token) (new_user : User) (s1 s2 : Store) (w1 w2 w3 : W) :
  let u := user (store st) in
  let client := mkClient (VStr (endpoint u)) VNone
                  (default false (OPENSTACK_SSL_NO_VERIFY settings)) in
  let redirect_to := default EmptyString (REQUEST req !! redirect_field_name) in
  tokens_authenticate client tenant_id (token_id u) (world st) = (Ret token, w1) →
  create_user_from_token token (endpoint u) (store st) w1 = (new_user, s1, w2) →
  set_session_from_user new_user s1 w2 = (tt, s2, w3) →
  switch req tenant_id redirect_field_name st
  = (Ret (HttpResponseRedirect
            (if is_safe_url redirect_to (host req) then redirect_to
             else LOGIN_REDIRECT_URL settings)),
     mkState s2 w3
       (trace st ++
        [Log DEBUG ("Switching to tenant " +:+ tenant_id +:+ " for user "
                    +:+ dq +:+ username u +:+ dq +:+ ".");
         TokensAuthenticate client tenant_id (token_id u);
         Log INFO ("Tenant switch successful for user "
                   +:+ dq +:+ username u +:+ dq +:+ ".")])
       (threads st)).
Proof.
  intros u client redirect_to Hauth Hcreate Hset. subst u client redirect_to.
  unfold switch, client_tokens_authenticate. unfold_m. proj.
  rewrite Hauth. proj. rewrite Hcreate. proj. rewrite Hset. proj.
  rewrite <- !(assoc_L (++)). by destruct (is_safe_url _ _).
Qed.

(** X6.  An exception of [client.tokens.authenticate] that is not a client
    error is not caught: [switch] raises it, answers nothing, logs no
    failure and leaves the store as it was. *)
Theorem switch_other_error_propagates
    (req : Request) (tenant_id redirect_field_name : string) (st : State W)
    (e : exn) (w' : W) :
  let u := user (store st) in
  let client := mkClient (VStr (endpoint u)) VNone
                  (default false (OPENSTACK_SSL_NO_VERIFY settings)) in
  tokens_authenticate client tenant_id (token_id u) (world st) = (Raise e, w') →
  is_ClientException e = false →
  switch req tenant_id redirect_field_name st
  = (Raise e,
     mkState (store st) w'
       (trace st ++
        [Log DEBUG ("Switching to tenant " +:+ tenant_id +:+ " for user "
                    +:+ dq +:+ username u +:+ dq +:+ ".");
         TokensAuthenticate client tenant_id (token_id u)])
       (threads st)).
Proof.
  intros u client Hauth Hnc. subst u client.
  unfold switch, client_tokens_authenticate. unfold_m. proj.
  rewrite Hauth. proj. rewrite Hnc.
  by rewrite <- !(assoc_L (++)).
Qed.

Lemma identity_calls_app (tr1 tr2 : list Event) :
  identity_calls (tr1 ++ tr2) = identity_calls tr1 ++ identity_calls tr2.
Proof. apply List.filter_app. Qed.

(** X7.  However a tenant switch ends (redirect after success, redirect
    after a client error, or an exception), [switch] has called the
    identity service exactly once: one [tokens.authenticate] for the
    requested tenant, with the current user's token, on a client for the
    current user's endpoint that carries no token and the configured
    [OPENSTACK_SSL_NO_VERIFY] (false when unset).  It starts no thread. *)
Theorem switch_authenticates_once
    (req : Request) (tenant_id redirect_field_name : string) (st : State W) :
  let u := user (store st) in
  let client := mkClient (VStr (endpoint u)) VNone
                  (default false (OPENSTACK_SSL_NO_VERIFY settings)) in
  let st' := (switch req tenant_id redirect_field_name st).2 in
  identity_calls (trace st')
  = identity_calls (trace st) ++ [TokensAuthenticate client tenant_id (token_id u)]
  ∧ threads st' = threads st.
Proof.
  intros u client. subst u client.
  unfold switch, client_tokens_authenticate. unfold_m. proj.
  destruct (tokens_authenticate _ _ _ _) as [[token|e] w']; proj.
  - destruct (create_user_from_token _ _ _ _) as [[u' s'] w'']. proj.
    destruct (set_session_from_user _ _ _) as [[[] s''] w''']. proj.
    rewrite !identity_calls_app. cbn [identity_calls List.filter is_log negb].
    by rewrite !app_nil_r.
  - destruct (is_ClientException e); proj; rewrite !identity_calls_app;
      cbn [identity_calls List.filter is_log negb]; by rewrite ?app_nil_r.
Qed.

(** ** Region switch *)

Lemma py_dict_lookup_None (pairs : list (string * string)) (k : string) :
  k ∉ pairs.*1 → py_dict pairs !! k = None.
Proof.
  induction pairs as [|[k' v'] pairs IH] using rev_ind; intros Hnot; first done.
  rewrite fmap_app in Hnot. apply not_elem_of_app in Hnot as [Hnot Hk'].
  rewrite py_dict_snoc, lookup_insert_ne; first by apply IH.
  intros ->. apply Hk'. simpl. left.
Qed.

(** The run of [switch_region] when a token is cached and the user is
    authenticated after the login. *)
Lemma switch_region_success_run
    (req : Request) (region_name redirect_field_name auth_url : string)
    (st : State W) (l : loc) (rt : gmap string val) (unscoped_token : val)
    (u1 : option User) (s1 s2 s3 : Store) (w1 w2 w3 : W) :
  let redirect_to := default EmptyString (REQUEST req !! redirect_field_name) in
  let target := if is_safe_url redirect_to (host req) then redirect_to
                else LOGIN_REDIRECT_URL settings in
  head (region_urls region_name) = Some auth_url →
  session (store st) !! "region_tokens" = Some (VRef l) →
  heap (store st) !! l = Some (ODict rt) →
  rt !! auth_url = Some unscoped_token →
  django_auth (Some (username (user (store st)))) unscoped_token auth_url
    (store st) (world st) = (u1, s1, w1) →
  django_do_login u1 s1 w1 = (tt, s2, w2) →
  is_authenticated (user s2) = true →
  set_session_from_user (user s2) s2 w2 = (tt, s3, w3) →
  switch_region req region_name redirect_field_name st
  = (Ret (HttpResponseRedirect target),
     mkState
       (mkStore (heap s3)
          (<["region_tokens" := VRef l]>
             (<["region_name" := from_option VStr VNone
                                   (py_dict get_region_choices !! endpoint (user s3))]>
                (<["region_endpoint" := VStr (endpoint (user s3))]> (session s3))))
          (user s3))
       w3
       (trace st ++
        [Log DEBUG ("Switching to " +:+ region_name +:+ " at " +:+ auth_url);
         Log DEBUG ("Redirecting to " +:+ target)])
       (threads st)).
Proof.
  intros redirect_to target Hres Hsess Hheap Htok Hauth Hlogin Hok Hset.
  subst redirect_to target.
  unfold switch_region.
  destruct (region_urls region_name) as [|url urls]; simplify_eq/=.
  unfold_m. proj. rewrite Hsess. unfold getitem_in at 1. proj.
  rewrite Hheap, Htok. proj. rewrite Hauth. proj. rewrite Hlogin. proj.
  rewrite Hok. cbn [negb]. proj. rewrite Hset. proj.
  unfold with_store. proj.
  destruct (is_safe_url _ _); cbn [negb]; unfold redirect;
    by rewrite <- !(assoc_L (++)).
Qed.

(** X8.  If the user is not authenticated after [django_auth] and the
    login, [switch_region] ends the session instead of completing the
    switch: it returns what [django_logout(request)] returns, run on the
    store the login left.  [set_session_from_user] is not called and the
    view writes no session key. *)
Theorem switch_region_unauthenticated_logs_out
    (req : Request) (region_name redirect_field_name auth_url : string)
    (st : State W) (l : loc) (rt : gmap string val) (unscoped_token : val)
    (u1 : option User) (s1 s2 : Store) (w1 w2 : W) :
  head (region_urls region_name) = Some auth_url →
  session (store st) !! "region_tokens" = Some (VRef l) →
  heap (store st) !! l = Some (ODict rt) →
  rt !! auth_url = Some unscoped_token →
  django_auth (Some (username (user (store st)))) unscoped_token auth_url
    (store st) (world st) = (u1, s1, w1) →
  django_do_login u1 s1 w1 = (tt, s2, w2) →
  is_authenticated (user s2) = false →
  ∃ resp s w,
    django_logout s2 w2 = (resp, s, w) ∧
    switch_region req region_name redirect_field_name st
    = (Ret resp,
       mkState s w
         (trace st ++ [Log DEBUG ("Switching to " +:+ region_name +:+ " at " +:+ auth_url)])
         (threads st)).
Proof.
  intros Hres Hsess Hheap Htok Hauth Hlogin Hno.
  destruct (django_logout s2 w2) as [[resp s] w] eqn:Hout.
  exists resp, s, w. split; first done.
  unfold switch_region.
  destruct (region_urls region_name) as [|url urls]; simplify_eq/=.
  unfold_m. proj. rewrite Hsess. unfold getitem_in at 1. proj.
  rewrite Hheap, Htok. proj. rewrite Hauth. proj. rewrite Hlogin. proj.
  rewrite Hno. cbn [negb]. proj. by rewrite Hout.
Qed.

(** X9.  Only a missing key ends in a logout.  If the session's
    [region_tokens] is there but is not a mapping ([None], a string, a
    tuple, a list), looking the auth_url up in it raises [TypeError], which
    the [except KeyError] does not catch: [switch_region] raises it, and
    neither [django_logout] nor [django_auth] is called. *)
Theorem switch_region_bad_mapping_raises
    (req : Request) (region_name redirect_field_name auth_url : string)
    (st : State W) (v : val) :
  head (region_urls region_name) = Some auth_url →
  session (store st) !! "region_tokens" = Some v →
  (∀ l d, v = VRef l → heap (store st) !! l ≠ Some (ODict d)) →
  switch_region req region_name redirect_field_name st
  = (Raise TypeError,
     mkState (store st) (world st)
       (trace st ++ [Log DEBUG ("Switching to " +:+ region_name +:+ " at " +:+ auth_url)])
       (threads st)).
Proof.
  intros Hres Hsess Hbad.
  unfold switch_region.
  destruct (region_urls region_name) as [|url urls]; simplify_eq/=.
  unfold_m. proj. rewrite Hsess. proj.
  assert (Hget : getitem_in (heap (store st)) v auth_url = Raise TypeError).
  { unfold getitem_in. destruct v as [| | |l]; try done.
    destruct (heap (store st) !! l) as [[xs|d]|] eqn:Hl; try done.
    by destruct (Hbad l d eq_refl). }
  by rewrite Hget.
Qed.

(** X10.  The display name a region switch records is looked up by the
    authenticated user's endpoint in [dict(Login.get_region_choices())],
    not taken from the request: it is the name of the LAST choice with
    that endpoint, and [None] when no choice has it. *)
Theorem switch_region_records_last_listed_name
    (req : Request) (region_name redirect_field_name auth_url : string)
    (st : State W) (l : loc) (rt : gmap string val) (unscoped_token : val)
    (u1 : option User) (s1 s2 s3 : Store) (w1 w2 w3 : W) :
  head (region_urls region_name) = Some auth_url →
  session (store st) !! "region_tokens" = Some (VRef l) →
  heap (store st) !! l = Some (ODict rt) →
  rt !! auth_url = Some unscoped_token →
  django_auth (Some (username (user (store st)))) unscoped_token auth_url
    (store st) (world st) = (u1, s1, w1) →
  django_do_login u1 s1 w1 = (tt, s2, w2) →
  is_authenticated (user s2) = true →
  set_session_from_user (user s2) s2 w2 = (tt, s3, w3) →
  let st' := (switch_region req region_name redirect_field_name st).2 in
  (∀ pre post name,
     get_region_choices = pre ++ (endpoint (user s3), name) :: post →
     endpoint (user s3) ∉ post.*1 →
     session (store st') !! "region_name" = Some (VStr name)) ∧
  (endpoint (user s3) ∉ get_region_choices.*1 →
   session (store st') !! "region_name" = Some VNone).
Proof.
  intros Hres Hsess Hheap Htok Hauth Hlogin Hok Hset st'. subst st'.
  rewrite (switch_region_success_run _ _ _ _ _ _ _ _ _ _ _ _ _ _ _
             Hres Hsess Hheap Htok Hauth Hlogin Hok Hset).
  proj. rewrite lookup_insert_ne, lookup_insert_eq by done. split.
  - intros pre post name Hchoices Hpost.
    by rewrite Hchoices, py_dict_lookup_last.
  - intros Hnot. by rewrite py_dict_lookup_None.
Qed.

(** X11.  Whatever path [switch_region] takes (logout, exception or
    redirect), the view itself only logs: every event it adds to the trace
    is a log record, so any call to the identity service is made by the
    collaborators, and it starts no thread. *)
Theorem switch_region_only_logs
    (req : Request) (region_name redirect_field_name : string) (st : State W) :
  let st' := (switch_region req region_name redirect_field_name st).2 in
  (∃ logs, trace st' = trace st ++ logs ∧ forallb is_log logs = true) ∧
  identity_calls (trace st') = identity_calls (trace st) ∧
  threads st' = threads st.
Proof.
  intros st'.
  assert (H : (∃ logs, trace st' = trace st ++ logs ∧ forallb is_log logs = true)
              ∧ threads st' = threads st).
  { subst st'. unfold switch_region.
    destruct (region_urls region_name) as [|auth_url urls].
    { unfold_m. destruct (django_logout _ _) as [[resp s] w]. proj.
      split; last done. exists []. by rewrite app_nil_r. }
    unfold_m. proj.
    destruct (session (store st) !! "region_tokens") as [v|]; proj.
    - destruct (getitem_in _ v auth_url) as [tok|e]; proj.
      + destruct (django_auth _ _ _ _ _) as [[u1 s1] w1]. proj.
        destruct (django_do_login _ _ _) as [[[] s2] w2]. proj.
        destruct (is_authenticated (user s2)); cbn [negb]; proj.
        * destruct (set_session_from_user _ _ _) as [[[] s3] w3]. proj.
          unfold with_store. proj.
          split; last done. eexists [_; _].
          by rewrite <- !(assoc_L (++)).
        * destruct (django_logout _ _) as [[resp s] w]. proj.
          split; last done. by eexists [_].
      + destruct (is_KeyError e); proj.
        * destruct (django_logout _ _) as [[resp s] w]. proj.
          split; last done. by eexists [_].
        * split; last done. by eexists [_].
    - destruct (django_logout _ _) as [[resp s] w]. proj.
      split; last done. by eexists [_]. }
  destruct H as [(logs & Htr & Hlogs) Hthreads].
  split_and!; [by exists logs | | done].
  rewrite Htr, identity_calls_app.
  assert (Hnil : identity_calls logs = []).
  { clear Htr. induction logs as [|ev logs IH]; first done.
    simpl in Hlogs. apply andb_true_iff in Hlogs as [Hev Hlogs].
    unfold identity_calls in *. simpl. rewrite Hev. simpl. by apply IH. }
  by rewrite Hnil, app_nil_r.
Qed.

(** ** The CAS helpers *)

(** X12.  What the CAS helpers return is read off the body of the answer:
    [_retrieve_cas_token] returns [body['access']['token']['id']] and
    [_retrieve_cas_url] returns [body['cas_login_url']]; a missing key is a
    [KeyError] and a non-object on the way a [TypeError], and an exception
    of the request itself is raised as it is.  Nothing is caught, and
    whatever happens the store and the threads are untouched. *)
Theorem cas_helpers_results
    (auth_url : string) (insecure : bool) (ticket service : string) (st : State W) :
  let client := mkHTTPClient auth_url insecure in
  let token_params :=
    JObj {[ "auth" := JObj {[ "casCredentials" :=
      JObj (<["ticket" := JStr ticket]> {[ "service" := JStr service ]}) ]} ]} in
  let url_params :=
    JObj {[ "auth" := JObj {[ "casCredentials" :=
      JObj {[ "service" := JStr service ]} ]} ]} in
  let answer params := http_request client (auth_url +:+ "/tokens") "POST" params (world st) in
  (_retrieve_cas_token auth_url insecure ticket service st).1
  = match (answer token_params).1 with
    | Ret (_, body) => json_path body ["access"; "token"; "id"]
    | Raise e => Raise e
    end ∧
  (_retrieve_cas_url auth_url insecure service st).1
  = match (answer url_params).1 with
    | Ret (_, body) => json_path body ["cas_login_url"]
    | Raise e => Raise e
    end ∧
  store (_retrieve_cas_token auth_url insecure ticket service st).2 = store st ∧
  threads (_retrieve_cas_token auth_url insecure ticket service st).2 = threads st ∧
  world (_retrieve_cas_token auth_url insecure ticket service st).2
  = (answer token_params).2 ∧
  store (_retrieve_cas_url auth_url insecure service st).2 = store st ∧
  threads (_retrieve_cas_url auth_url insecure service st).2 = threads st ∧
  world (_retrieve_cas_url auth_url insecure service st).2 = (answer url_params).2.
Proof.
  intros client token_params url_params answer.
  subst client token_params url_params answer.
  rewrite (cas_token_full auth_url insecure ticket service st).
  rewrite (cas_url_full auth_url insecure service st).
  by proj.
Qed.

(** ** Login with an unscoped token *)

(** The run of [_unscoped_token_login] when the user is authenticated after
    the login. *)
Lemma unscoped_token_login_success_run
    (req : Request) (auth_url redirect_field_name : string)
    (unscoped_token region_tokens : val) (st : State W)
    (u1 : option User) (s1 s2 s3 : Store) (w1 w2 w3 : W) :
  let redirect_to := default EmptyString (REQUEST req !! redirect_field_name) in
  let target := if is_safe_url redirect_to (host req) then redirect_to
                else LOGIN_REDIRECT_URL settings in
  let projected :=
    <["region_name" := from_option VStr VNone
                         (py_dict get_region_choices !! endpoint (user s3))]>
      (<["region_endpoint" := VStr (endpoint (user s3))]> (session s3)) in
  django_auth None unscoped_token auth_url (store st) (world st) = (u1, s1, w1) →
  django_do_login u1 s1 w1 = (tt, s2, w2) →
  is_authenticated (user s2) = true →
  set_session_from_user (user s2) s2 w2 = (tt, s3, w3) →
  _unscoped_token_login req auth_url unscoped_token region_tokens redirect_field_name st
  = (Ret (HttpResponseRedirect target),
     mkState
       (mkStore (heap s3)
          (if truthy_in (heap s3) region_tokens
           then <["region_tokens" := region_tokens]> projected else projected)
          (user s3))
       w3 (trace st ++ [Log DEBUG ("Redirecting to " +:+ target)]) (threads st)).
Proof.
  intros redirect_to target projected Hauth Hlogin Hok Hset.
  subst redirect_to target projected.
  unfold _unscoped_token_login, truthy. unfold_m. proj.
  rewrite Hauth. proj. rewrite Hlogin. proj.
  rewrite Hok. cbn [negb]. proj. rewrite Hset. proj.
  unfold with_store. proj.
  destruct (truthy_in (heap s3) region_tokens); proj;
    destruct (is_safe_url _ _); cbn [negb]; by unfold redirect.
Qed.

(** X13.  [_unscoped_token_login] passes no username to [django_auth].  If
    the user is not authenticated after the login it returns what
    [django_logout(request)] returns, run on the store the login left, and
    writes nothing. *)
Theorem unscoped_token_login_unauthenticated_logs_out
    (req : Request) (auth_url redirect_field_name : string)
    (unscoped_token region_tokens : val) (st : State W)
    (u1 : option User) (s1 s2 : Store) (w1 w2 : W) :
  django_auth None unscoped_token auth_url (store st) (world st) = (u1, s1, w1) →
  django_do_login u1 s1 w1 = (tt, s2, w2) →
  is_authenticated (user s2) = false →
  ∃ resp s w,
    django_logout s2 w2 = (resp, s, w) ∧
    _unscoped_token_login req auth_url unscoped_token region_tokens redirect_field_name st
    = (Ret resp, mkState s w (trace st) (threads st)).
Proof.
  intros Hauth Hlogin Hno.
  destruct (django_logout s2 w2) as [[resp s] w] eqn:Hout.
  exists resp, s, w. split; first done.
  unfold _unscoped_token_login. unfold_m. proj.
  rewrite Hauth. proj. rewrite Hlogin. proj.
  rewrite Hno. cbn [negb]. proj. by rewrite Hout.
Qed.

(** X14.  When the user is authenticated after the login,
    [_unscoped_token_login] records the user's endpoint and its display
    name and redirects to the validated target.  It stores [region_tokens]
    only if the value it was given is true: given [None], or an empty
    mapping, it leaves the session's [region_tokens] entry as
    [set_session_from_user] left it. *)
Theorem unscoped_token_login_stores_only_true_region_tokens
    (req : Request) (auth_url redirect_field_name : string)
    (unscoped_token region_tokens : val) (st : State W)
    (u1 : option User) (s1 s2 s3 : Store) (w1 w2 w3 : W) :
  let redirect_to := default EmptyString (REQUEST req !! redirect_field_name) in
  django_auth None unscoped_token auth_url (store st) (world st) = (u1, s1, w1) →
  django_do_login u1 s1 w1 = (tt, s2, w2) →
  is_authenticated (user s2) = true →
  set_session_from_user (user s2) s2 w2 = (tt, s3, w3) →
  ∃ st',
    _unscoped_token_login req auth_url unscoped_token region_tokens redirect_field_name st
    = (Ret (HttpResponseRedirect
              (if is_safe_url redirect_to (host req) then redirect_to
               else LOGIN_REDIRECT_URL settings)), st') ∧
    session (store st') !! "region_endpoint" = Some (VStr (endpoint (user s3))) ∧
    session (store st') !! "region_name"
    = Some (from_option VStr VNone (py_dict get_region_choices !! endpoint (user s3))) ∧
    (truthy_in (heap s3) region_tokens = true →
     session (store st') !! "region_tokens" = Some region_tokens) ∧
    (truthy_in (heap s3) region_tokens = false →
     session (store st') !! "region_tokens" = session s3 !! "region_tokens") ∧
    (∀ d, region_tokens = VNone
          ∨ (∃ l, region_tokens = VRef l ∧ heap s3 !! l = Some (ODict d) ∧ d = ∅) →
          session (store st') !! "region_tokens" = session s3 !! "region_tokens").
Proof.
  intros redirect_to Hauth Hlogin Hok Hset. subst redirect_to.
  rewrite (unscoped_token_login_success_run _ _ _ _ _ _ _ _ _ _ _ _ _
             Hauth Hlogin Hok Hset).
  eexists. split; first reflexivity. proj.
  assert (Hfalse : truthy_in (heap s3) region_tokens = false →
                   (if truthy_in (heap s3) region_tokens
                    then <["region_tokens" := region_tokens]>
                           (<["region_name" := from_option VStr VNone
                                (py_dict get_region_choices !! endpoint (user s3))]>
                              (<["region_endpoint" := VStr (endpoint (user s3))]>
                                 (session s3)))
                    else <["region_name" := from_option VStr VNone
                             (py_dict get_region_choices !! endpoint (user s3))]>
                           (<["region_endpoint" := VStr (endpoint (user s3))]>
                              (session s3)))
                   !! "region_tokens" = session s3 !! "region_tokens").
  { intros ->. by rewrite !lookup_insert_ne. }
  split_and!.
  - destruct (truthy_in _ _).
    + by rewrite 2!lookup_insert_ne, lookup_insert_eq.
    + by rewrite lookup_insert_ne, lookup_insert_eq.
  - destruct (truthy_in _ _).
    + by rewrite lookup_insert_ne, lookup_insert_eq.
    + by rewrite lookup_insert_eq.
  - intros ->. by rewrite lookup_insert_eq.
  - exact Hfalse.
  - intros d [-> | (l & -> & Hl & ->)]; apply Hfalse; first done.
    unfold truthy_in. by rewrite Hl, map_to_list_empty.
Qed.

(** ** CAS login *)

Lemma cas_token_run
    (auth_url : string) (insecure : bool) (ticket service : string) (st : State W)
    (r : res (HttpResp * json)) (w' : W) :
  let client := mkHTTPClient auth_url insecure in
  let params :=
    JObj {[ "auth" := JObj {[ "casCredentials" :=
      JObj (<["ticket" := JStr ticket]> {[ "service" := JStr service ]}) ]} ]} in
  http_request client (auth_url +:+ "/tokens") "POST" params (world st) = (r, w') →
  _retrieve_cas_token auth_url insecure ticket service st
  = (match r with
     | Ret (_, body) => json_path body ["access"; "token"; "id"]
     | Raise e => Raise e
     end,
     mkState (store st) w'
       (trace st ++ [UrlJoin auth_url "tokens" (urljoin auth_url "tokens");
                     HttpRequest client (auth_url +:+ "/tokens") "POST" params])
       (threads st)).
Proof.
  intros client params Hreq. subst client params.
  rewrite (cas_token_full auth_url insecure ticket service st). by rewrite Hreq.
Qed.

Lemma cas_url_run
    (auth_url : string) (insecure : bool) (service : string) (st : State W)
    (r : res (HttpResp * json)) (w' : W) :
  let client := mkHTTPClient auth_url insecure in
  let params :=
    JObj {[ "auth" := JObj {[ "casCredentials" :=
      JObj {[ "service" := JStr service ]} ]} ]} in
  http_request client (auth_url +:+ "/tokens") "POST" params (world st) = (r, w') →
  _retrieve_cas_url auth_url insecure service st
  = (match r with
     | Ret (_, body) => json_path body ["cas_login_url"]
     | Raise e => Raise e
     end,
     mkState (store st) w'
       (trace st ++ [UrlJoin auth_url "tokens" (urljoin auth_url "tokens");
                     HttpRequest client (auth_url +:+ "/tokens") "POST" params])
       (threads st)).
Proof.
  intros client params Hreq. subst client params.
  rewrite (cas_url_full auth_url insecure service st). by rewrite Hreq.
Qed.

Lemma store_eta (s : Store) : mkStore (heap s) (session s) (user s) = s.
Proof. by destruct s. Qed.

Section CasProperties.
Context `{C : !CasEnv}.

(** X15.  Without a ticket (the parameter is absent or empty) [cas_login]
    asks the identity service for the CAS login URL, sending the service
    URL only, and redirects to the URL of the answer.  It does not touch
    the store: nobody is authenticated, logged in or logged out. *)
Theorem cas_login_without_ticket_redirects_to_cas
    (req : Request) (st : State W) (resp : HttpResp) (body : json)
    (url : string) (w' : W) :
  let auth_url := OPENSTACK_KEYSTONE_URL settings in
  let client :=
    mkHTTPClient auth_url (default false (OPENSTACK_SSL_NO_VERIFY settings)) in
  let params :=
    JObj {[ "auth" := JObj {[ "casCredentials" :=
      JObj {[ "service" := JStr (_service_url req) ]} ]} ]} in
  (REQUEST req !! "ticket" = None ∨ REQUEST req !! "ticket" = Some EmptyString) →
  http_request client (auth_url +:+ "/tokens") "POST" params (world st)
  = (Ret (resp, body), w') →
  json_path body ["cas_login_url"] = Ret (JStr url) →
  cas_login req st
  = (Ret (HttpResponseRedirect url),
     mkState (store st) w'
       (trace st ++ [UrlJoin auth_url "tokens" (urljoin auth_url "tokens");
                     HttpRequest client (auth_url +:+ "/tokens") "POST" params])
       (threads st)).
Proof.
  intros auth_url client params Hticket Hreq Hurl. subst auth_url client params.
  unfold cas_login.
  assert (Hrun := cas_url_run _ _ _ _ _ _ Hreq). cbv beta iota zeta in Hrun.
  rewrite Hurl in Hrun.
  destruct Hticket as [-> | ->]; unfold_m; rewrite Hrun; proj;
    unfold py_value, shortcuts_redirect; proj; cbn [py_of_json];
    unfold_m; by rewrite store_eta.
Qed.

(** X16.  With a ticket, [cas_login] exchanges it for the token of the
    answer and logs in with that token at [OPENSTACK_KEYSTONE_URL], passing
    no username and no [region_tokens].  When the user is authenticated
    after the login the session gets [region_endpoint] and [region_name],
    its [region_tokens] entry is left as [set_session_from_user] left it,
    and the redirect goes to the validated value of the parameter
    [next]. *)
Theorem cas_login_with_ticket_logs_in
    (req : Request) (st : State W) (ticket token : string)
    (resp : HttpResp) (body : json) (w' : W)
    (u1 : option User) (s1 s2 s3 : Store) (w1 w2 w3 : W) :
  let auth_url := OPENSTACK_KEYSTONE_URL settings in
  let client :=
    mkHTTPClient auth_url (default false (OPENSTACK_SSL_NO_VERIFY settings)) in
  let params :=
    JObj {[ "auth" := JObj {[ "casCredentials" :=
      JObj (<["ticket" := JStr ticket]> {[ "service" := JStr (_service_url req) ]}) ]} ]} in
  let redirect_to := default EmptyString (REQUEST req !! REDIRECT_FIELD_NAME) in
  REQUEST req !! "ticket" = Some ticket →
  ticket ≠ EmptyString →
  http_request client (auth_url +:+ "/tokens") "POST" params (world st)
  = (Ret (resp, body), w') →
  json_path body ["access"; "token"; "id"] = Ret (JStr token) →
  django_auth None (VStr token) auth_url (store st) w' = (u1, s1, w1) →
  django_do_login u1 s1 w1 = (tt, s2, w2) →
  is_authenticated (user s2) = true →
  set_session_from_user (user s2) s2 w2 = (tt, s3, w3) →
  ∃ st',
    cas_login req st
    = (Ret (HttpResponseRedirect
              (if is_safe_url redirect_to (host req) then redirect_to
               else LOGIN_REDIRECT_URL settings)), st') ∧
    session (store st') !! "region_endpoint" = Some (VStr (endpoint (user s3))) ∧
    session (store st') !! "region_name"
    = Some (from_option VStr VNone (py_dict get_region_choices !! endpoint (user s3))) ∧
    session (store st') !! "region_tokens" = session s3 !! "region_tokens" ∧
    identity_calls (trace st')
    = identity_calls (trace st)
      ++ [UrlJoin auth_url "tokens" (urljoin auth_url "tokens");
          HttpRequest client (auth_url +:+ "/tokens") "POST" params].
Proof.
  intros auth_url client params redirect_to Hticket Hne Hreq Htoken
    Hauth Hlogin Hok Hset.
  subst auth_url client params redirect_to.
  unfold cas_login. rewrite Hticket.
  destruct ticket as [|c t]; first done.
  assert (Hrun := cas_token_run _ _ _ _ _ _ _ Hreq). cbv beta iota zeta in Hrun.
  rewrite Htoken in Hrun.
  unfold mbind at 1, M_bind, bind. rewrite Hrun.
  unfold mbind at 1, M_bind, bind, py_value. proj. cbn [py_of_json]. rewrite store_eta.
  erewrite unscoped_token_login_success_run; [| proj; eassumption..].
  eexists. split; first reflexivity. proj.
  cbn [truthy_in].
  split_and!.
  - by rewrite lookup_insert_ne, lookup_insert_eq.
  - by rewrite lookup_insert_eq.
  - by rewrite !lookup_insert_ne.
  - rewrite !identity_calls_app. cbn [identity_calls List.filter is_log negb].
    by rewrite app_nil_r.
Qed.

(** X17.  [cas_login] catches nothing.  When the exchange with the identity
    service fails (the request raises, or the answer lacks the expected
    entry) the exception leaves [cas_login], and the store is as it was:
    no login is attempted and the session is not ended. *)
Theorem cas_login_exchange_failure_propagates
    (req : Request) (st st1 : State W) (e : exn) :
  let auth_url := OPENSTACK_KEYSTONE_URL settings in
  let insecure := default false (OPENSTACK_SSL_NO_VERIFY settings) in
  match REQUEST req !! "ticket" with
  | Some (String c t) =>
      _retrieve_cas_token auth_url insecure (String c t) (_service_url req) st
  | _ => _retrieve_cas_url auth_url insecure (_service_url req) st
  end = (Raise e, st1) →
  cas_login req st = (Raise e, st1) ∧ store st1 = store st ∧ threads st1 = threads st.
Proof.
  intros auth_url insecure Hfail. subst auth_url insecure.
  unfold cas_login.
  destruct (REQUEST req !! "ticket") as [[|c t]|].
  - pose proof (cas_url_run (OPENSTACK_KEYSTONE_URL settings)
                  (default false (OPENSTACK_SSL_NO_VERIFY settings))
                  (_service_url req) st _ _ (surjective_pairing _)) as Hrun.
    cbv zeta in Hrun. rewrite Hfail in Hrun.
    injection Hrun as Hr Hst. unfold_m. rewrite Hfail. proj.
    by rewrite Hst.
  - pose proof (cas_token_run (OPENSTACK_KEYSTONE_URL settings)
                  (default false (OPENSTACK_SSL_NO_VERIFY settings))
                  (String c t) (_service_url req) st _ _ (surjective_pairing _)) as Hrun.
    cbv zeta in Hrun. rewrite Hfail in Hrun.
    injection Hrun as Hr Hst. unfold_m. rewrite Hfail. proj.
    by rewrite Hst.
  - pose proof (cas_url_run (OPENSTACK_KEYSTONE_URL settings)
                  (default false (OPENSTACK_SSL_NO_VERIFY settings))
                  (_service_url req) st _ _ (surjective_pairing _)) as Hrun.
    cbv zeta in Hrun. rewrite Hfail in Hrun.
    injection Hrun as Hr Hst. unfold_m. rewrite Hfail. proj.
    by rewrite Hst.
Qed.

End CasProperties.

(** ** Login *)

Lemma py_dict_is_Some (pairs : list (string * string)) (k : string) :
  is_Some (py_dict pairs !! k) ↔ k ∈ pairs.*1.
Proof.
  induction pairs as [|[k' v'] pairs IH] using rev_ind.
  - split; [intros [? ?]; done | intros H; by apply elem_of_nil in H].
  - rewrite py_dict_snoc, fmap_app, elem_of_app. simpl.
    destruct (decide (k' = k)) as [->|Hne].
    + rewrite lookup_insert_eq. split; [intros _; right; left | eauto].
    + rewrite lookup_insert_ne by done. rewrite IH. split; first by left.
      intros [H|H]; first done.
      apply elem_of_cons in H as [H|H]; first by subst.
      by apply elem_of_nil in H.
Qed.

Lemma surjective_pairing3 {A B C : Type} (p : A * B * C) : p = (p.1.1, p.1.2, p.2).
Proof. by destruct p as [[? ?] ?]. Qed.

Section LoginProperties.
Context `{L : !LoginEnv}.

Lemma login_run (req : LoginRequest) (st : State W) (resp : LoginResponse)
    (s : Store) (w : W) :
  django_login req (login_template req)
    (login_form (default VNone (session (store st) !! "region_endpoint")) req)
    (login_context req) (store st) (world st)
  = (resp, s, w) →
  login req st
  = (Ret resp,
     if is_authenticated (user s)
     then
       let '(_, s3, w3) := set_session_from_user (user s) s w in
       mkState
         (mkStore (heap s3)
            (<["region_name" := from_option VStr VNone
                                  (py_dict get_region_choices !! endpoint (user s3))]>
               (<["region_endpoint" := VStr (endpoint (user s3))]> (session s3)))
            (user s3))
         w3 (trace st) (threads st)
     else mkState s w (trace st) (threads st)).
Proof.
  unfold login_template, login_context, login_form. intros Hlogin.
  unfold login, session_get. unfold_m. proj.
  destruct (is_ajax req); proj; rewrite Hlogin; proj;
    (destruct (is_authenticated (user s)); proj; last done);
    (destruct (set_session_from_user _ _ _) as [[[] s3] w3]; proj);
    unfold with_store; by proj.
Qed.

(** X18.  [login] returns the response of Django's login view as it is, and
    logs and starts nothing.  If the user is not authenticated after the
    login view (the form was shown, or the credentials were refused) the
    view changes nothing: the store is the one the login view left. *)
Theorem login_unauthenticated_changes_nothing
    (req : LoginRequest) (st : State W) (resp : LoginResponse) (s : Store) (w : W) :
  django_login req (login_template req)
    (login_form (default VNone (session (store st) !! "region_endpoint")) req)
    (login_context req) (store st) (world st)
  = (resp, s, w) →
  (login req st).1 = Ret resp ∧
  trace (login req st).2 = trace st ∧
  threads (login req st).2 = threads st ∧
  (is_authenticated (user s) = false →
   login req st = (Ret resp, mkState s w (trace st) (threads st))).
Proof.
  intros Hlogin. rewrite (login_run _ _ _ _ _ Hlogin). proj.
  destruct (is_authenticated (user s)).
  - destruct (set_session_from_user _ _ _) as [[[] s3] w3]. by proj.
  - by proj.
Qed.

(** X19.  If the user is authenticated after Django's login view, [login]
    calls [set_session_from_user] and then records in the session the
    user's endpoint as [region_endpoint] and the display name the region
    choices give it ([None] if they list no such endpoint) as
    [region_name].  Every other key, [region_tokens] among them, is left as
    [set_session_from_user] left it. *)
Theorem login_authenticated_records_region
    (req : LoginRequest) (st : State W) (resp : LoginResponse)
    (s s3 : Store) (w w3 : W) :
  django_login req (login_template req)
    (login_form (default VNone (session (store st) !! "region_endpoint")) req)
    (login_context req) (store st) (world st)
  = (resp, s, w) →
  is_authenticated (user s) = true →
  set_session_from_user (user s) s w = (tt, s3, w3) →
  let st' := (login req st).2 in
  let region := endpoint (user s3) in
  (login req st).1 = Ret resp ∧
  session (store st') !! "region_endpoint" = Some (VStr region) ∧
  session (store st') !! "region_name"
  = Some (from_option VStr VNone (py_dict get_region_choices !! region)) ∧
  (region ∉ get_region_choices.*1 →
   session (store st') !! "region_name" = Some VNone) ∧
  (∀ key, key ≠ "region_endpoint" → key ≠ "region_name" →
     session (store st') !! key = session s3 !! key) ∧
  heap (store st') = heap s3 ∧ user (store st') = user s3 ∧ world st' = w3.
Proof.
  intros Hlogin Hok Hset st' region. subst st' region.
  rewrite (login_run _ _ _ _ _ Hlogin), Hok, Hset. proj.
  split_and!; try done.
  - by rewrite lookup_insert_ne, lookup_insert_eq.
  - by rewrite lookup_insert_eq.
  - intros Hnot. by rewrite lookup_insert_eq, py_dict_lookup_None.
  - intros key Hne1 Hne2. by rewrite !lookup_insert_ne.
Qed.

(** X20.  The form [login] hands to Django's login view.  A POST gets the
    form bound to the request, whatever region is asked for.  Any other
    request gets an unbound form whose initial data holds the region of the
    [region] parameter when that is the auth_url of a configured region and
    is not the [region_endpoint] of the session, and holds nothing
    otherwise.  (The response identifies the call: [login] returns what
    the login view returns for that form.) *)
Theorem login_preselects_requested_region
    (req : LoginRequest) (st : State W) :
  let regs := default [] (AVAILABLE_REGIONS settings) in
  let answer form :=
    (django_login req (login_template req) form (login_context req)
       (store st) (world st)).1.1 in
  (method req = "POST" → (login req st).1 = Ret (answer FormBound)) ∧
  (method req ≠ "POST" →
   ∀ r, GET req !! "region" = Some r →
        r ∈ regs.*1 →
        session (store st) !! "region_endpoint" ≠ Some (VStr r) →
        (login req st).1 = Ret (answer (FormInitial {[ "region" := r ]}))) ∧
  (method req ≠ "POST" →
   (GET req !! "region" = None
    ∨ ∃ r, GET req !! "region" = Some r
           ∧ (r ∉ regs.*1 ∨ session (store st) !! "region_endpoint" = Some (VStr r))) →
   (login req st).1 = Ret (answer (FormInitial ∅))).
Proof.
  intros regs answer. subst regs answer.
  pose proof (λ resp s w, login_run req st resp s w) as Hrun.
  unfold login_form in Hrun.
  split_and!.
  - intros Hpost. apply String.eqb_eq in Hpost. rewrite Hpost in Hrun.
    by rewrite (Hrun _ _ _ (surjective_pairing3 _)).
  - intros Hget r Hr Hin Hcur. apply String.eqb_neq in Hget.
    rewrite Hget, Hr in Hrun.
    rewrite bool_decide_true in Hrun by by apply py_dict_is_Some.
    assert (Hneq : match default VNone (session (store st) !! "region_endpoint") with
                   | VStr s => String.eqb s r
                   | _ => false
                   end = false).
    { destruct (session (store st) !! "region_endpoint") as [[| s | |]|]; try done.
      simpl. apply String.eqb_neq. intros ->. by apply Hcur. }
    rewrite Hneq in Hrun. cbn [andb negb] in Hrun.
    by rewrite (Hrun _ _ _ (surjective_pairing3 _)).
  - intros Hget Hno. apply String.eqb_neq in Hget. rewrite Hget in Hrun.
    destruct Hno as [Hnone | (r & Hr & Hwhy)].
    + rewrite Hnone in Hrun. by rewrite (Hrun _ _ _ (surjective_pairing3 _)).
    + rewrite Hr in Hrun. destruct Hwhy as [Hnot | Hcur].
      * rewrite bool_decide_false in Hrun by by rewrite py_dict_is_Some.
        cbn [andb] in Hrun. by rewrite (Hrun _ _ _ (surjective_pairing3 _)).
      * rewrite Hcur in Hrun. simpl in Hrun. rewrite String.eqb_refl in Hrun.
        rewrite andb_false_r in Hrun.
        by rewrite (Hrun _ _ _ (surjective_pairing3 _)).
Qed.

End LoginProperties.

End MoreProperties.

(** * The further properties on the sample deployments *)

(** The second deletion cannot reach the identity service: the third token
    is never tried. *)
Lemma delete_all_tokens_other_error_aborts_witness :
  ∃ st',
    @delete_all_tokens flaky_env
      (VTuple [pair_item (VStr r1_url, VStr "t1");
               pair_item (VStr r1_url, VStr "unreachable");
               pair_item (VStr r1_url, VStr "t3")])
      sample_state
    = (Raise (OtherException "ConnectionError"), st') ∧
    trace st'
    = [TokensDelete (mkClient (VStr r1_url) (VStr "t1") false) (VStr "t1");
       TokensDelete (mkClient (VStr r1_url) (VStr "unreachable") false)
         (VStr "unreachable")].
Proof.
  eexists. split.
  - exact (@delete_all_tokens_other_error_aborts flaky_env
             (VTuple [pair_item (VStr r1_url, VStr "t1");
                      pair_item (VStr r1_url, VStr "unreachable");
                      pair_item (VStr r1_url, VStr "t3")])
             [pair_item (VStr r1_url, VStr "t1")]
             [pair_item (VStr r1_url, VStr "t3")]
             (VStr r1_url, VStr "unreachable")
             sample_state
             (@delete_all_tokens flaky_env
                (VTuple [pair_item (VStr r1_url, VStr "t1")]) sample_state).2
             (OtherException "ConnectionError") [VStr "t1"]
             ltac:(vm_compute; reflexivity) ltac:(vm_compute; reflexivity)
             ltac:(vm_compute; reflexivity) ltac:(reflexivity)).
  - vm_compute. reflexivity.
Defined.

Lemma logout_without_token_list_witness :
  ∃ resp st',
    @logout sample_env (sample_request "/dashboard") visitor_state = (Ret resp, st') ∧
    threads st' = [] ∧ heap (store st') = ∅.
Proof.
  destruct (@logout_without_token_list sample_env (sample_request "/dashboard")
              visitor_state ltac:(vm_compute; reflexivity))
    as (resp & s & w & Hout & Hrun).
  eexists resp, _. split; first exact Hrun.
  injection Hout as _ <- _. split; reflexivity.
Defined.

Lemma logout_then_reaper_deletes_session_tokens_witness :
  ∃ resp st' arg st'',
    @logout sample_env (sample_request "/dashboard") sample_state = (Ret resp, st') ∧
    threads st' = [arg] ∧
    @delete_all_tokens sample_env arg st' = (Ret tt, st'') ∧
    delete_attempts (trace st'')
    = [TokensDelete (mkClient (VStr r1_url) (VStr "expired") false) (VStr "expired");
       TokensDelete (mkClient (VStr r1_url) (VStr "scoped:t1") false) (VStr "scoped:t1")].
Proof.
  destruct (@logout_then_reaper_deletes_session_tokens sample_env
              (sample_request "/dashboard") sample_state 2%positive
              [(VStr r1_url, VStr "expired"); (VStr r1_url, VStr "scoped:t1")]
              ltac:(vm_compute; reflexivity) ltac:(vm_compute; reflexivity)
              sample_logout_keeps_objects sample_delete_client_errors)
    as (resp & st' & arg & st'' & Hrun & Hthreads & Hreap & Hattempts).
  exists resp, st', arg, st''.
  split_and!; [exact Hrun | exact Hthreads | exact Hreap | exact Hattempts].
Defined.

Lemma switch_success_projects_new_user_witness :
  ∃ st',
    @switch sample_env (sample_request "/dashboard") "demo" REDIRECT_FIELD_NAME
      sample_state
    = (Ret (HttpResponseRedirect "/dashboard"), st') ∧
    session (store st') !! "token" = Some (VStr "scoped:demo") ∧
    session (store st') !! "region_endpoint" = Some (VStr r1_url) ∧
    user (store st') = alice.
Proof.
  eexists. split.
  - exact (@switch_success_projects_new_user sample_env
             (sample_request "/dashboard") "demo" REDIRECT_FIELD_NAME sample_state
             "scoped:demo" (mkUser "alice" "scoped:demo" r1_url true)
             (store sample_state)
             (mkStore sample_heap (<["token" := VStr "scoped:demo"]> sample_session) alice)
             [] [] []
             ltac:(vm_compute; reflexivity) ltac:(vm_compute; reflexivity)
             ltac:(vm_compute; reflexivity)).
  - vm_compute. split_and!; reflexivity.
Defined.

Lemma switch_other_error_propagates_witness :
  ∃ st',
    @switch flaky_env (sample_request "/dashboard") "down" REDIRECT_FIELD_NAME
      sample_state
    = (Raise (OtherException "ConnectionError"), st') ∧
    store st' = store sample_state.
Proof.
  eexists. split.
  - exact (@switch_other_error_propagates flaky_env
             (sample_request "/dashboard") "down" REDIRECT_FIELD_NAME sample_state
             (OtherException "ConnectionError") []
             ltac:(vm_compute; reflexivity) ltac:(reflexivity)).
  - reflexivity.
Defined.

Lemma switch_region_unauthenticated_logs_out_witness :
  ∃ resp st',
    @switch_region strict_env (sample_request "/dashboard") "RegionTwo"
      REDIRECT_FIELD_NAME revoked_state
    = (Ret resp, st') ∧
    resp = HttpResponseRedirect "/auth/login/" ∧
    session (store st') = ∅.
Proof.
  destruct (@switch_region_unauthenticated_logs_out strict_env
              (sample_request "/dashboard") "RegionTwo" REDIRECT_FIELD_NAME
              r2_url revoked_state 1%positive {[ r2_url := VNone ]} VNone
              None (store revoked_state)
              (mkStore (heap (store revoked_state)) ∅ anonymous) [] []
              ltac:(vm_compute; reflexivity) ltac:(vm_compute; reflexivity)
              ltac:(vm_compute; reflexivity) ltac:(vm_compute; reflexivity)
              ltac:(vm_compute; reflexivity) ltac:(vm_compute; reflexivity)
              ltac:(reflexivity))
    as (resp & s & w & Hout & Hrun).
  eexists resp, _. split; first exact Hrun.
  injection Hout as <- <- _. split; reflexivity.
Defined.

Lemma switch_region_bad_mapping_raises_witness :
  ∃ st',
    @switch_region sample_env (sample_request "/dashboard") "RegionTwo"
      REDIRECT_FIELD_NAME
      (mkState (mkStore ∅ {[ "region_tokens" := VNone ]} alice) [] [] [])
    = (Raise TypeError, st') ∧
    user (store st') = alice.
Proof.
  eexists. split.
  - apply (@switch_region_bad_mapping_raises sample_env
             (sample_request "/dashboard") "RegionTwo" REDIRECT_FIELD_NAME r2_url
             (mkState (mkStore ∅ {[ "region_tokens" := VNone ]} alice) [] [] [])
             VNone).
    + vm_compute. reflexivity.
    + vm_compute. reflexivity.
    + intros l d Hv. discriminate Hv.
  - reflexivity.
Defined.

(** The choices list the second auth_url as [RegionTwo] and then as
    [Backup]: a switch to [RegionTwo] records the name [Backup]. *)
Lemma switch_region_records_last_listed_name_witness :
  session (store (@switch_region alias_env (sample_request "/dashboard") "RegionTwo"
                    REDIRECT_FIELD_NAME sample_state).2) !! "region_name"
  = Some (VStr "Backup").
Proof.
  apply (@switch_region_records_last_listed_name alias_env
           (sample_request "/dashboard") "RegionTwo" REDIRECT_FIELD_NAME r2_url
           sample_state 1%positive
           (<[r1_url := VStr "u1"]> {[ r2_url := VStr "u2" ]}) (VStr "u2")
           (Some (mkUser "alice" "scoped:u2" r2_url true))
           (store sample_state)
           (mkStore sample_heap ∅ (mkUser "alice" "scoped:u2" r2_url true))
           (mkStore sample_heap {[ "token" := VStr "scoped:u2" ]}
              (mkUser "alice" "scoped:u2" r2_url true))
           [] [] []
           ltac:(vm_compute; reflexivity) ltac:(vm_compute; reflexivity)
           ltac:(vm_compute; reflexivity) ltac:(vm_compute; reflexivity)
           ltac:(vm_compute; reflexivity) ltac:(vm_compute; reflexivity)
           ltac:(vm_compute; reflexivity) ltac:(vm_compute; reflexivity))
    with (pre := [(r1_url, "RegionOne"); (r2_url, "RegionTwo")]) (post := []).
  - reflexivity.
  - intros H. by apply elem_of_nil in H.
Defined.

Lemma unscoped_token_login_unauthenticated_logs_out_witness :
  ∃ resp st',
    @_unscoped_token_login sample_env (sample_request "/dashboard") r1_url
      VNone VNone REDIRECT_FIELD_NAME visitor_state
    = (Ret resp, st') ∧
    resp = HttpResponseRedirect "/auth/login/".
Proof.
  destruct (@unscoped_token_login_unauthenticated_logs_out sample_env
              (sample_request "/dashboard") r1_url REDIRECT_FIELD_NAME VNone VNone
              visitor_state None (store visitor_state) (store visitor_state) [] []
              ltac:(vm_compute; reflexivity) ltac:(vm_compute; reflexivity)
              ltac:(reflexivity))
    as (resp & s & w & Hout & Hrun).
  eexists resp, _. split; first exact Hrun.
  by injection Hout as <- _ _.
Defined.

(** A visitor logs in with the token [u1] and no [region_tokens]: the
    session gets the region, and no [region_tokens] entry. *)
Lemma unscoped_token_login_stores_only_true_region_tokens_witness :
  ∃ st',
    @_unscoped_token_login sample_env (sample_request "/dashboard") r1_url
      (VStr "u1") VNone REDIRECT_FIELD_NAME visitor_state
    = (Ret (HttpResponseRedirect "/dashboard"), st') ∧
    session (store st') !! "region_endpoint" = Some (VStr r1_url) ∧
    session (store st') !! "region_name" = Some (VStr "RegionOne") ∧
    session (store st') !! "region_tokens" = None.
Proof.
  destruct (@unscoped_token_login_stores_only_true_region_tokens sample_env
              (sample_request "/dashboard") r1_url REDIRECT_FIELD_NAME
              (VStr "u1") VNone visitor_state
              (Some (mkUser EmptyString "scoped:u1" r1_url true))
              (store visitor_state)
              (mkStore ∅ ∅ (mkUser EmptyString "scoped:u1" r1_url true))
              (mkStore ∅ {[ "token" := VStr "scoped:u1" ]}
                 (mkUser EmptyString "scoped:u1" r1_url true))
              [] [] []
              ltac:(vm_compute; reflexivity) ltac:(vm_compute; reflexivity)
              ltac:(reflexivity) ltac:(vm_compute; reflexivity))
    as (st' & Hrun & Hep & Hname & _ & Hfalse & _).
  exists st'. split_and!; [exact Hrun | exact Hep | exact Hname | exact (Hfalse eq_refl)].
Defined.

Lemma cas_login_without_ticket_redirects_to_cas_witness :
  ∃ st',
    @cas_login cas_env sample_cas (cas_request None) visitor_state
    = (Ret (HttpResponseRedirect "https://cas.example/login"), st') ∧
    store st' = store visitor_state.
Proof.
  eexists. split.
  - apply (@cas_login_without_ticket_redirects_to_cas cas_env sample_cas
             (cas_request None) visitor_state 200
             (JObj {[ "cas_login_url" := JStr "https://cas.example/login" ]})
             "https://cas.example/login" []).
    + left. vm_compute. reflexivity.
    + vm_compute. reflexivity.
    + vm_compute. reflexivity.
  - reflexivity.
Defined.

Lemma cas_login_with_ticket_logs_in_witness :
  ∃ st',
    @cas_login cas_env sample_cas (cas_request (Some "ST-1")) visitor_state
    = (Ret (HttpResponseRedirect "/home/"), st') ∧
    session (store st') !! "region_endpoint" = Some (VStr r1_url) ∧
    session (store st') !! "region_name" = Some (VStr "RegionOne") ∧
    session (store st') !! "region_tokens" = None.
Proof.
  destruct (@cas_login_with_ticket_logs_in cas_env sample_cas
              (cas_request (Some "ST-1")) visitor_state "ST-1" "u1" 200
              (JObj {[ "access" := JObj {[ "token" := JObj {[ "id" := JStr "u1" ]} ]} ]})
              []
              (Some (mkUser EmptyString "scoped:u1" r1_url true))
              (store visitor_state)
              (mkStore ∅ ∅ (mkUser EmptyString "scoped:u1" r1_url true))
              (mkStore ∅ {[ "token" := VStr "scoped:u1" ]}
                 (mkUser EmptyString "scoped:u1" r1_url true))
              [] [] []
              ltac:(vm_compute; reflexivity) ltac:(discriminate)
              ltac:(vm_compute; reflexivity) ltac:(vm_compute; reflexivity)
              ltac:(vm_compute; reflexivity) ltac:(vm_compute; reflexivity)
              ltac:(reflexivity) ltac:(vm_compute; reflexivity))
    as (st' & Hrun & Hep & Hname & Htokens & _).
  exists st'. split_and!; [exact Hrun | exact Hep | exact Hname | exact Htokens].
Defined.

(** A stale ticket is refused by the identity service: the client error
    leaves [cas_login]. *)
Lemma cas_login_exchange_failure_propagates_witness :
  ∃ st1,
    @cas_login cas_env sample_cas (cas_request (Some "stale")) visitor_state
    = (Raise (ClientException "Unauthorized"), st1) ∧
    store st1 = store visitor_state.
Proof.
  destruct (@cas_login_exchange_failure_propagates cas_env sample_cas
              (cas_request (Some "stale")) visitor_state
              (@_retrieve_cas_token cas_env r1_url false "stale"
                 "http://myapp.example/auth/cas/login" visitor_state).2
              (ClientException "Unauthorized")
              ltac:(vm_compute; reflexivity))
    as (Hrun & Hstore & _).
  eexists. split; [exact Hrun | exact Hstore].
Defined.

Lemma login_unauthenticated_changes_nothing_witness :
  @login sample_env sample_login (get_request r2_url) visitor_state
  = (Ret ("auth/_login.html?region=" +:+ r2_url), visitor_state).
Proof.
  apply (@login_unauthenticated_changes_nothing sample_env sample_login
           (get_request r2_url) visitor_state
           ("auth/_login.html?region=" +:+ r2_url) (store visitor_state) []
           ltac:(vm_compute; reflexivity)).
  reflexivity.
Defined.

(** A POST logs Alice in: her region is recorded. *)
Lemma login_authenticated_records_region_witness :
  session (store (@login sample_env sample_login post_request visitor_state).2)
    !! "region_endpoint" = Some (VStr r1_url) ∧
  session (store (@login sample_env sample_login post_request visitor_state).2)
    !! "region_name" = Some (VStr "RegionOne") ∧
  session (store (@login sample_env sample_login post_request visitor_state).2)
    !! "region_tokens" = None.
Proof.
  destruct (@login_authenticated_records_region sample_env sample_login
              post_request visitor_state "redirect"
              (mkStore ∅ ∅ alice) (mkStore ∅ {[ "token" := VStr "scoped:t1" ]} alice)
              [] []
              ltac:(vm_compute; reflexivity) ltac:(reflexivity)
              ltac:(vm_compute; reflexivity))
    as (_ & Hep & Hname & _ & Hother & _).
  split_and!; [exact Hep | exact Hname |].
  rewrite (Hother "region_tokens") by discriminate. vm_compute. reflexivity.
Defined.

(** Alice, working in region one, asks for the login form with region two
    preselected. *)
Lemma login_preselects_requested_region_witness :
  (@login sample_env sample_login (get_request r2_url) sample_state).1
  = Ret ("auth/_login.html?region=" +:+ r2_url) ∧
  (@login sample_env sample_login (get_request r1_url) sample_state).1
  = Ret "auth/_login.html?region=none" ∧
  (@login sample_env sample_login post_request sample_state).1 = Ret "redirect".
Proof.
  split_and!.
  - apply (proj1 (proj2 (@login_preselects_requested_region sample_env sample_login
                            (get_request r2_url) sample_state))
             ltac:(discriminate) r2_url ltac:(vm_compute; reflexivity)).
    + vm_compute. right. left.
    + vm_compute. discriminate.
  - apply (proj2 (proj2 (@login_preselects_requested_region sample_env sample_login
                            (get_request r1_url) sample_state))
             ltac:(discriminate)).
    right. exists r1_url. split; first (vm_compute; reflexivity).
    right. vm_compute. reflexivity.
  - apply (proj1 (@login_preselects_requested_region sample_env sample_login
                    post_request sample_state)).
    reflexivity.
Defined.

(** The sample helper at the first region: the join drops the last segment
    of the base, and the request does not go there. *)
Example cas_token_sample_trace :
  trace (@_retrieve_cas_token sample_env r1_url false "ST-1" "http://myapp.example/"
           sample_state).2
  = [UrlJoin r1_url "tokens" "http://r1.example:5000/tokens";
     HttpRequest (mkHTTPClient r1_url false) "http://r1.example:5000/v2.0/tokens" "POST"
       (JObj {[ "auth" := JObj {[ "casCredentials" :=
          JObj (<["ticket" := JStr "ST-1"]>
                  {[ "service" := JStr "http://myapp.example/" ]}) ]} ]})].
Proof. vm_compute. reflexivity. Qed.
